(** * Inventory management: a shallow embedding of [inventory_system.py]

    The program keeps two SQLite tables, [products] and [transactions],
    behind the class [InventoryManager].  Every method opens a connection,
    runs one statement and commits it, so a table is modelled as the list of
    its rows in rowid order and a statement as a function on the tables.
    Python's [float] is IEEE binary64, taken from [SpecFloat] with precision
    53 and maximal exponent 1024.

    Modelling conventions.
    - Python [int] is [Z]; a column holds a value of its declared type
      ([TEXT] a string, [INTEGER] an integer, [REAL] a float).  [None],
      values of another Python type and integers beyond SQLite's 64 bits
      are outside the model, so no statement fails in the driver.
    - [datetime.datetime.now().isoformat()] reads a clock; the world carries
      the readings to come as a function of the number of readings so far.
    - [print] appends a line to the console of the world.
    - An exception keeps the writes committed before it was raised.
    - [PRAGMA foreign_keys] is never switched on by the program, so the
      [FOREIGN KEY] clause of [transactions] is not enforced. *)

From Stdlib Require Import ZArith List String Ascii Bool Lia.
From Stdlib Require Import Floats.SpecFloat.
From Stdlib Require Import Sorted Permutation.
Import ListNotations.

Local Open Scope string_scope.
Local Open Scope list_scope.
Local Open Scope Z_scope.

(** ** Python numbers *)

Definition float := spec_float.

Definition prec : Z := 53.
Definition emax : Z := 1024.

Definition fadd : float -> float -> float := SFadd prec emax.
Definition fmul : float -> float -> float := SFmul prec emax.
Definition fdiv : float -> float -> float := SFdiv prec emax.

(** The result of evaluating a Python expression: a value or a raised
    exception (its message). *)
Inductive outcome (A : Type) : Type :=
| Return (a : A)
| Raise (e : string).
Arguments Return {A} a.
Arguments Raise {A} e.

(** [float(n)] for an [int]: the nearest double, [OverflowError] when there
    is none. *)
Definition float_of_int (n : Z) : outcome float :=
  match binary_normalize prec emax n 0 false with
  | S754_infinity _ => Raise "int too large to convert to float"
  | x => Return x
  end.

(** A decimal literal [n / 10^k] read as a double (correctly rounded). *)
Definition float_of_decimal (n : Z) (k : nat) : float :=
  let d := S754_finite false (Z.to_pos (10 ^ Z.of_nat k)) 0 in
  match n with
  | Z0 => S754_zero false
  | Zpos p => fdiv (S754_finite false p 0) d
  | Zneg p => fdiv (S754_finite true p 0) d
  end.

(** The numbers the report computes with: [int] or [float]. *)
Inductive pynum : Type :=
| PInt (n : Z)
| PFloat (x : float).

(** [a + b] on numbers; an [int] operand next to a [float] is converted. *)
Definition py_add (a b : pynum) : outcome pynum :=
  match a, b with
  | PInt m, PInt n => Return (PInt (m + n))
  | PInt m, PFloat y =>
      match float_of_int m with
      | Return x => Return (PFloat (fadd x y))
      | Raise e => Raise e
      end
  | PFloat x, PInt n =>
      match float_of_int n with
      | Return y => Return (PFloat (fadd x y))
      | Raise e => Raise e
      end
  | PFloat x, PFloat y => Return (PFloat (fadd x y))
  end.

(** [price * quantity] with a [float] price and an [int] quantity. *)
Definition py_mul_float_int (x : float) (n : Z) : outcome pynum :=
  match float_of_int n with
  | Return y => Return (PFloat (fmul x y))
  | Raise e => Raise e
  end.

(** [sum(iterable)]: [0 + x1 + x2 + ...], left to right, where producing an
    item may itself raise.  (CPython from 3.12 on carries a compensation
    term for floats; it leaves the result of fewer than three items as it
    is here.) *)
Fixpoint py_sum_from (acc : pynum) (items : list (outcome pynum)) : outcome pynum :=
  match items with
  | [] => Return acc
  | Raise e :: _ => Raise e
  | Return x :: rest =>
      match py_add acc x with
      | Return acc' => py_sum_from acc' rest
      | Raise e => Raise e
      end
  end.

Definition py_sum (items : list (outcome pynum)) : outcome pynum :=
  py_sum_from (PInt 0) items.

(** *** [round(x, 2)]

    For a finite float [m * 2^e] Python takes the decimal with two
    fractional digits nearest to the exact value, ties going to the even
    last digit, and returns the double nearest to that decimal.
    [round_cents n d] is the number of hundredths chosen for [n / d]. *)
Definition round_half_even (n d : Z) : Z :=
  let q := n / d in
  let r := n mod d in
  match 2 * r ?= d with
  | Lt => q
  | Gt => q + 1
  | Eq => if Z.even q then q else q + 1
  end.


(** Hundredths of the magnitude [m * 2^e], [e < 0], under a rounding rule. *)
Definition cents_with (rule : Z -> Z -> Z) (m : positive) (e : Z) : Z :=
  rule (100 * Zpos m) (2 ^ (- e)).

Definition float_of_cents (s : bool) (k : Z) : float :=
  match k with
  | Zpos p => fdiv (S754_finite s p 0) (S754_finite false 100 0)
  | _ => S754_zero s
  end.

Definition round2_with (rule : Z -> Z -> Z) (x : float) : float :=
  match x with
  | S754_finite s m e =>
      if 0 <=? e then x else float_of_cents s (cents_with rule m e)
  | _ => x
  end.

Definition py_round2_float : float -> float := round2_with round_half_even.

(** [round(v, 2)]: an [int] is returned as it is. *)
Definition py_round2 (v : pynum) : pynum :=
  match v with
  | PInt n => PInt n
  | PFloat x => PFloat (py_round2_float x)
  end.


(** ** The database

    [Row]: a row of [products], the dict [execute_query] returns for it.
    [Txn]: a row of [transactions].  [Product]: the Python class. *)

Module Row.
Record t : Type := mk {
  id : Z;
  name : string;
  description : string;
  category : string;
  price : float;
  quantity : Z;
  min_stock : Z;
  supplier : string;
  created_date : string;
  last_updated : string
}.
End Row.

Module Txn.
Record t : Type := mk {
  id : Z;
  product_id : Z;
  transaction_type : string;
  quantity : Z;
  price : float;
  date : string;
  notes : string
}.
End Txn.

Module Product.
Record t : Type := mk {
  name : string;
  description : string;
  category : string;
  price : float;
  quantity : Z;
  min_stock : Z;
  supplier : string;
  created_date : string;
  last_updated : string
}.
End Product.

(** A row of the history query: [t.*] and [p.name as product_name]. *)
Record history_row : Type := mk_history_row {
  txn : Txn.t;
  product_name : string
}.

(** The world a method runs in: the two tables, the [AUTOINCREMENT]
    counters of [sqlite_sequence], the clock and the console. *)
Record World : Type := mk_world {
  products : list Row.t;
  transactions : list Txn.t;
  products_seq : Z;
  transactions_seq : Z;
  clock : nat -> string;
  ticks : nat;
  stdout : list string
}.

Definition with_products (ps : list Row.t) (seq : Z) (w : World) : World :=
  mk_world ps (transactions w) seq (transactions_seq w)
           (clock w) (ticks w) (stdout w).

Definition with_transactions (ts : list Txn.t) (seq : Z) (w : World) : World :=
  mk_world (products w) ts (products_seq w) seq
           (clock w) (ticks w) (stdout w).

(** ** Methods as state transformers that may raise *)

Definition M (A : Type) : Type := World -> outcome A * World.

Definition ret {A} (a : A) : M A := fun w => (Return a, w).

Definition raise {A} (e : string) : M A := fun w => (Raise e, w).

Definition bind {A B} (c : M A) (k : A -> M B) : M B :=
  fun w =>
    match c w with
    | (Return a, w') => k a w'
    | (Raise e, w') => (Raise e, w')
    end.

(** [try: body  except Exception as e: handler e] *)
Definition try_except {A} (body : M A) (handler : string -> M A) : M A :=
  fun w =>
    match body w with
    | (Return a, w') => (Return a, w')
    | (Raise e, w') => handler e w'
    end.

Declare Scope py_scope.
Delimit Scope py_scope with py.
Notation "x <- c ;; k" := (bind c (fun x => k))
  (at level 61, c at next level, right associativity) : py_scope.
Notation "c ;; k" := (bind c (fun _ => k))
  (at level 61, right associativity) : py_scope.
Local Open Scope py_scope.

Definition lift {A} (o : outcome A) : M A := fun w => (o, w).

(** [print(line)] *)
Definition print (line : string) : M unit :=
  fun w => (Return tt,
            mk_world (products w) (transactions w) (products_seq w)
                     (transactions_seq w) (clock w) (ticks w)
                     (stdout w ++ [line])).

(** [datetime.datetime.now().isoformat()] *)
Definition now_isoformat : M string :=
  fun w => (Return (clock w (ticks w)),
            mk_world (products w) (transactions w) (products_seq w)
                     (transactions_seq w) (clock w) (S (ticks w))
                     (stdout w)).

(** *** The statements [execute_query] is called with *)

(** The rowid an [AUTOINCREMENT] table gives its next row: one more than
    the largest rowid the table has ever held. *)
Definition next_rowid (seq : Z) (ids : list Z) : Z :=
  fold_left Z.max ids seq + 1.

(** [INSERT INTO products (name, ..., last_updated) VALUES (?, ..., ?)] *)
Definition insert_product (p : Product.t) : M unit :=
  fun w =>
    let i := next_rowid (products_seq w) (map Row.id (products w)) in
    (Return tt,
     with_products
       (products w ++
        [Row.mk i (Product.name p) (Product.description p)
                (Product.category p) (Product.price p) (Product.quantity p)
                (Product.min_stock p) (Product.supplier p)
                (Product.created_date p) (Product.last_updated p)])
       i w).

(** [INSERT INTO transactions (product_id, ..., notes) VALUES (?, ..., ?)] *)
Definition insert_transaction (product_id : Z) (transaction_type : string)
    (quantity : Z) (price : float) (date notes : string) : M unit :=
  fun w =>
    let i := next_rowid (transactions_seq w) (map Txn.id (transactions w)) in
    (Return tt,
     with_transactions
       (transactions w ++
        [Txn.mk i product_id transaction_type quantity price date notes])
       i w).

(** Stable insertion sort, for [ORDER BY]; rows that compare equal stay in
    scan order. *)
Section Sort.
Context {A : Type} (le : A -> A -> bool).

Fixpoint insert_sorted (x : A) (l : list A) : list A :=
  match l with
  | [] => [x]
  | y :: l' => if le x y then x :: l else y :: insert_sorted x l'
  end.

Definition order_by (l : list A) : list A :=
  fold_right insert_sorted [] l.
End Sort.

(** [SELECT * FROM products ORDER BY name] *)
Definition select_products_order_by_name : M (list Row.t) :=
  fun w =>
    (Return (order_by (fun a b => String.leb (Row.name a) (Row.name b))
                      (products w)), w).

(** [SELECT * FROM products WHERE id = ?] *)
Definition select_products_where_id (product_id : Z) : M (list Row.t) :=
  fun w => (Return (filter (fun r => Row.id r =? product_id) (products w)), w).

(** [SELECT * FROM products WHERE name = ?] *)
Definition select_products_where_name (name : string) : M (list Row.t) :=
  fun w => (Return (filter (fun r => String.eqb (Row.name r) name) (products w)), w).

(** [SELECT * FROM products WHERE quantity <= min_stock] *)
Definition select_low_stock : M (list Row.t) :=
  fun w => (Return (filter (fun r => Row.quantity r <=? Row.min_stock r) (products w)), w).

(** [DELETE FROM products WHERE id = ?] *)
Definition delete_products_where_id (product_id : Z) : M unit :=
  fun w =>
    (Return tt,
     with_products (filter (fun r => negb (Row.id r =? product_id)) (products w))
                   (products_seq w) w).

(** A value bound to a [?] of an [UPDATE]: what a keyword argument of
    [update_product] carries. *)
Inductive pyval : Type :=
| VStr (s : string)
| VInt (n : Z)
| VFloat (x : float).

(** [field = ?] of a [SET] clause, on one row.  A value that is not of the
    column's type is outside the model and leaves the row as it is. *)
Definition set_column (field : string) (v : pyval) (r : Row.t) : Row.t :=
  match v with
  | VStr s =>
      if String.eqb field "name" then
        Row.mk (Row.id r) s (Row.description r) (Row.category r) (Row.price r)
               (Row.quantity r) (Row.min_stock r) (Row.supplier r)
               (Row.created_date r) (Row.last_updated r)
      else if String.eqb field "description" then
        Row.mk (Row.id r) (Row.name r) s (Row.category r) (Row.price r)
               (Row.quantity r) (Row.min_stock r) (Row.supplier r)
               (Row.created_date r) (Row.last_updated r)
      else if String.eqb field "category" then
        Row.mk (Row.id r) (Row.name r) (Row.description r) s (Row.price r)
               (Row.quantity r) (Row.min_stock r) (Row.supplier r)
               (Row.created_date r) (Row.last_updated r)
      else if String.eqb field "supplier" then
        Row.mk (Row.id r) (Row.name r) (Row.description r) (Row.category r)
               (Row.price r) (Row.quantity r) (Row.min_stock r) s
               (Row.created_date r) (Row.last_updated r)
      else if String.eqb field "last_updated" then
        Row.mk (Row.id r) (Row.name r) (Row.description r) (Row.category r)
               (Row.price r) (Row.quantity r) (Row.min_stock r)
               (Row.supplier r) (Row.created_date r) s
      else r
  | VInt n =>
      if String.eqb field "quantity" then
        Row.mk (Row.id r) (Row.name r) (Row.description r) (Row.category r)
               (Row.price r) n (Row.min_stock r) (Row.supplier r)
               (Row.created_date r) (Row.last_updated r)
      else if String.eqb field "min_stock" then
        Row.mk (Row.id r) (Row.name r) (Row.description r) (Row.category r)
               (Row.price r) (Row.quantity r) n (Row.supplier r)
               (Row.created_date r) (Row.last_updated r)
      else r
  | VFloat x =>
      if String.eqb field "price" then
        Row.mk (Row.id r) (Row.name r) (Row.description r) (Row.category r)
               x (Row.quantity r) (Row.min_stock r) (Row.supplier r)
               (Row.created_date r) (Row.last_updated r)
      else r
  end.

Definition set_columns (updates : list (string * pyval)) (r : Row.t) : Row.t :=
  fold_left (fun r' u => set_column (fst u) (snd u) r') updates r.

(** [UPDATE products SET f1 = ?, ..., fn = ? WHERE id = ?] *)
Definition update_products_where_id (updates : list (string * pyval))
    (product_id : Z) : M unit :=
  fun w =>
    (Return tt,
     with_products
       (map (fun r => if Row.id r =? product_id then set_columns updates r else r)
            (products w))
       (products_seq w) w).

(** [SELECT t.*, p.name as product_name FROM transactions t
     JOIN products p ON t.product_id = p.id] with its optional
    [WHERE t.product_id = ?] and its [ORDER BY t.date DESC]. *)
Definition join_products (ps : list Row.t) (t : Txn.t) : list history_row :=
  map (fun p => mk_history_row t (Row.name p))
      (filter (fun p => Txn.product_id t =? Row.id p) ps).

Definition date_desc (a b : history_row) : bool :=
  String.leb (Txn.date (txn b)) (Txn.date (txn a)).

Definition select_history (where_product_id : option Z) : M (list history_row) :=
  fun w =>
    let ts :=
      match where_product_id with
      | Some i => filter (fun t => Txn.product_id t =? i) (transactions w)
      | None => transactions w
      end in
    (Return (order_by date_desc (flat_map (join_products (products w)) ts)), w).

(** ** [class Product] *)

Definition Product_init (name : string) (price : float) (quantity : Z)
    (description category : string) (min_stock : Z) (supplier : string)
    : M Product.t :=
  created <- now_isoformat ;;
  updated <- now_isoformat ;;
  ret (Product.mk name description category price quantity min_stock
                  supplier created updated).

(** ** [class InventoryManager] *)

(** [results[0] if results else None] *)
Definition first_or_none {A} (results : list A) : option A :=
  match results with
  | [] => None
  | r :: _ => Some r
  end.

Definition get_all_products : M (list Row.t) :=
  select_products_order_by_name.

Definition get_product_by_id (product_id : Z) : M (option Row.t) :=
  results <- select_products_where_id product_id ;;
  ret (first_or_none results).

Definition get_product_by_name (name : string) : M (option Row.t) :=
  results <- select_products_where_name name ;;
  ret (first_or_none results).

Definition _log_transaction (product_id : Z) (transaction_type : string)
    (quantity : Z) (price : float) (notes : string) : M unit :=
  date <- now_isoformat ;;
  insert_transaction product_id transaction_type quantity price date notes.

(** [row['id']], a [TypeError] when the lookup gave [None]. *)
Definition subscript_id (row : option Row.t) : M Z :=
  match row with
  | Some r => ret (Row.id r)
  | None => raise "'NoneType' object is not subscriptable"
  end.

Definition add_product (product : Product.t) : M bool :=
  try_except
    (insert_product product ;;
     row <- get_product_by_name (Product.name product) ;;
     i <- subscript_id row ;;
     _log_transaction i "INITIAL_STOCK" (Product.quantity product)
                      (Product.price product)
                      ("Initial stock for " ++ Product.name product)%string ;;
     ret true)
    (fun e => print ("Error adding product: " ++ e)%string ;; ret false).

Definition valid_fields : list string :=
  ["name"; "description"; "category"; "price"; "quantity"; "min_stock";
   "supplier"].

(** [field in valid_fields] *)
Definition is_valid_field (field : string) : bool :=
  existsb (String.eqb field) valid_fields.

(** The loop of [update_product] over [kwargs.items()]: the pairs kept for
    the [SET] clause, in order. *)
Fixpoint collect_updates (kwargs : list (string * pyval)) : list (string * pyval) :=
  match kwargs with
  | [] => []
  | (field, value) :: rest =>
      if is_valid_field field then (field, value) :: collect_updates rest
      else collect_updates rest
  end.

Definition update_product (product_id : Z) (kwargs : list (string * pyval))
    : M bool :=
  try_except
    (match collect_updates kwargs with
     | [] => ret false
     | updates =>
         stamp <- now_isoformat ;;
         update_products_where_id
           (updates ++ [("last_updated", VStr stamp)]) product_id ;;
         ret true
     end)
    (fun e => print ("Error updating product: " ++ e)%string ;; ret false).

Definition delete_product (product_id : Z) : M bool :=
  try_except
    (delete_products_where_id product_id ;;
     ret true)
    (fun e => print ("Error deleting product: " ++ e)%string ;; ret false).

Definition add_stock (product_id quantity : Z) (price : float) (notes : string)
    : M bool :=
  try_except
    (product <- get_product_by_id product_id ;;
     match product with
     | None => ret false
     | Some row =>
         let new_quantity := Row.quantity row + quantity in
         update_product product_id [("quantity", VInt new_quantity)] ;;
         _log_transaction product_id "STOCK_IN" quantity price notes ;;
         ret true
     end)
    (fun e => print ("Error adding stock: " ++ e)%string ;; ret false).

Definition remove_stock (product_id quantity : Z) (price : float)
    (notes : string) : M bool :=
  try_except
    (product <- get_product_by_id product_id ;;
     match product with
     | None => ret false
     | Some row =>
         if Row.quantity row <? quantity then
           print "Insufficient stock available!" ;;
           ret false
         else
           let new_quantity := Row.quantity row - quantity in
           update_product product_id [("quantity", VInt new_quantity)] ;;
           _log_transaction product_id "STOCK_OUT" quantity price notes ;;
           ret true
     end)
    (fun e => print ("Error removing stock: " ++ e)%string ;; ret false).

Definition get_low_stock_products : M (list Row.t) :=
  select_low_stock.

(** [if product_id:] is false for [None] and for [0]. *)
Definition truthy (product_id : option Z) : bool :=
  match product_id with
  | None => false
  | Some i => negb (i =? 0)
  end.

Definition get_transaction_history (product_id : option Z)
    : M (list history_row) :=
  if truthy product_id then select_history product_id
  else select_history None.

(** *** [generate_inventory_report] *)

Definition and_then {A B} (o : outcome A) (k : A -> outcome B) : outcome B :=
  match o with
  | Return a => k a
  | Raise e => Raise e
  end.

(** [{'count': ..., 'value': ...}] *)
Record category_entry : Type := mk_entry {
  count : Z;
  value : pynum
}.

(** The dict [categories], in insertion order. *)
Definition categories_dict : Type := list (string * category_entry).

Fixpoint dict_get (key : string) (d : categories_dict) : option category_entry :=
  match d with
  | [] => None
  | (k, e) :: rest => if String.eqb k key then Some e else dict_get key rest
  end.

(** [d[key] = e]: in place when the key is there, at the end otherwise. *)
Fixpoint dict_set (key : string) (e : category_entry) (d : categories_dict)
    : categories_dict :=
  match d with
  | [] => [(key, e)]
  | (k, e') :: rest =>
      if String.eqb k key then (k, e) :: rest
      else (k, e') :: dict_set key e rest
  end.

(** [product['category'] or 'Uncategorized'] *)
Definition category_key (product : Row.t) : string :=
  if String.eqb (Row.category product) "" then "Uncategorized"
  else Row.category product.

(** [product['price'] * product['quantity']] *)
Definition stock_value (product : Row.t) : outcome pynum :=
  py_mul_float_int (Row.price product) (Row.quantity product).

(** One turn of the loop over [products]. *)
Definition categories_step (categories : categories_dict) (product : Row.t)
    : outcome categories_dict :=
  let category := category_key product in
  let categories :=
    match dict_get category categories with
    | None => dict_set category (mk_entry 0 (PInt 0)) categories
    | Some _ => categories
    end in
  match dict_get category categories with
  | None => Raise "KeyError"
  | Some e =>
      let e := mk_entry (count e + 1) (value e) in
      and_then (stock_value product) (fun v =>
      and_then (py_add (value e) v) (fun s =>
      Return (dict_set category (mk_entry (count e) s) categories)))
  end.

Fixpoint categories_loop (categories : categories_dict) (products : list Row.t)
    : outcome categories_dict :=
  match products with
  | [] => Return categories
  | product :: rest =>
      and_then (categories_step categories product) (fun categories' =>
      categories_loop categories' rest)
  end.

Record report : Type := mk_report {
  total_products : Z;
  total_inventory_value : pynum;
  low_stock_count : Z;
  categories : categories_dict;
  low_stock_products : list Row.t
}.

Definition generate_inventory_report : M report :=
  products <- get_all_products ;;
  low_stock <- get_low_stock_products ;;
  let total_products := Z.of_nat (List.length products) in
  total_value <- lift (py_sum (map stock_value products)) ;;
  categories <- lift (categories_loop [] products) ;;
  ret (mk_report total_products (py_round2 total_value)
                 (Z.of_nat (List.length low_stock)) categories low_stock).

(** ** Sample runs *)

Definition sample_clock (n : nat) : string :=
  String (ascii_of_nat (48 + n / 10)) (String (ascii_of_nat (48 + n mod 10)) "").

(** A fresh database: [init_database] has created the two empty tables. *)
Definition empty_world : World :=
  mk_world [] [] 0 0 sample_clock 0 [].

Definition run {A} (c : M A) (w : World) : World := snd (c w).
Definition result {A} (c : M A) (w : World) : outcome A := fst (c w).

Definition laptop : M Product.t :=
  Product_init "Laptop" (float_of_decimal 99999 2) 15 "Gaming laptop"
               "Electronics" 5 "TechCorp".

Definition notebook : M Product.t :=
  Product_init "Notebook" (float_of_decimal 399 2) 2 "A4 notebook"
               "Stationery" 10 "PaperCorp".

Definition world_laptop_notebook : World :=
  run (p1 <- laptop ;; add_product p1 ;;
       p2 <- notebook ;; add_product p2) empty_world.


Definition world_laptop : World :=
  run (p1 <- laptop ;; add_product p1) empty_world.

(** ** Observations used in the statements *)

(** The quantity [get_product_by_id] reads for a product, if it finds one. *)
Definition quantity_of (product_id : Z) (w : World) : option Z :=
  match result (get_product_by_id product_id) w with
  | Return (Some row) => Some (Row.quantity row)
  | _ => None
  end.

(** The same world but for the clock's position and the console. *)
Definition same_tables (w w' : World) : Prop :=
  products w' = products w /\ transactions w' = transactions w.

(** What [update_product(product_id, quantity=n)] writes into a row. *)
Definition stock_row (n : Z) (stamp : string) (r : Row.t) : Row.t :=
  set_columns [("quantity", VInt n); ("last_updated", VStr stamp)] r.

(** The ledger entry [_log_transaction] appends in world [w] when the clock
    is read at position [tick]. *)
Definition ledger_entry (w : World) (tick : nat) (product_id : Z)
    (transaction_type : string) (quantity : Z) (price : float)
    (notes : string) : Txn.t :=
  Txn.mk (next_rowid (transactions_seq w) (map Txn.id (transactions w)))
         product_id transaction_type quantity price (clock w tick) notes.

(** The world after a stock operation has written: the product's rows carry
    the new quantity and one entry is appended to the ledger. *)
Definition after_stock_write (product_id n : Z) (transaction_type : string)
    (quantity : Z) (price : float) (notes : string) (w : World) : World :=
  mk_world
    (map (fun r => if Row.id r =? product_id
                   then stock_row n (clock w (ticks w)) r else r)
         (products w))
    (transactions w ++
     [ledger_entry w (S (ticks w)) product_id transaction_type quantity
                   price notes])
    (products_seq w)
    (next_rowid (transactions_seq w) (map Txn.id (transactions w)))
    (clock w) (S (S (ticks w))) (stdout w).

(** The value a [quantity=...] keyword carries, if [kwargs] has one (the
    last one, should the list repeat the key, as in a [SET] clause). *)
Fixpoint quantity_kwarg (kwargs : list (string * pyval)) : option Z :=
  match kwargs with
  | [] => None
  | (field, v) :: rest =>
      match quantity_kwarg rest with
      | Some n => Some n
      | None =>
          match v with
          | VInt n => if String.eqb field "quantity" then Some n else None
          | _ => None
          end
      end
  end.

(** The row [add_product] stores for a [Product] in world [w]. *)
Definition new_product_row (product : Product.t) (w : World) : Row.t :=
  Row.mk (next_rowid (products_seq w) (map Row.id (products w)))
         (Product.name product) (Product.description product)
         (Product.category product) (Product.price product)
         (Product.quantity product) (Product.min_stock product)
         (Product.supplier product) (Product.created_date product)
         (Product.last_updated product).


(** The products of one bucket of the report, in the order of the loop. *)
Definition bucket (category : string) (ps : list Row.t) : list Row.t :=
  filter (fun p => String.eqb (category_key p) category) ps.

(** The entry of a bucket after the loop has met the products [b] of it,
    starting from entry [e]. *)
Fixpoint entry_loop (e : category_entry) (b : list Row.t)
    : outcome category_entry :=
  match b with
  | [] => Return e
  | p :: rest =>
      and_then (stock_value p) (fun v =>
      and_then (py_add (value e) v) (fun s =>
      entry_loop (mk_entry (count e + 1) s) rest))
  end.

(** The entry the loop starts a bucket from. *)
Definition entry_or_new (category : string) (d : categories_dict)
    : category_entry :=
  match dict_get category d with
  | Some e => e
  | None => mk_entry 0 (PInt 0)
  end.

(** A value a float can be added to without an [OverflowError]: the
    initial [0] or a float. *)
Definition addable (v : pynum) : Prop :=
  match v with
  | PInt n => n = 0
  | PFloat _ => True
  end.


(** A product stored with a negative quantity: [add_product] takes it. *)
Definition world_negative : World :=
  run (p <- Product_init "Widget" (float_of_decimal 1 0) (-5) "" "" 10 "" ;;
       add_product p) empty_world.


(** ** Further observations: rows and entries the manager writes *)

(** The [INITIAL_STOCK] entry [add_product] appends in world [w], booked on
    the product with id [owner]. *)
Definition initial_stock_entry (product : Product.t) (owner : Z) (w : World)
    : Txn.t :=
  Txn.mk (next_rowid (transactions_seq w) (map Txn.id (transactions w)))
         owner "INITIAL_STOCK" (Product.quantity product)
         (Product.price product) (clock w (ticks w))
         ("Initial stock for " ++ Product.name product)%string.

(** The id [add_product] books the [INITIAL_STOCK] entry on: that of the
    first row carrying the product's name once the new row is stored. *)
Definition initial_stock_owner (product : Product.t) (w : World) : Z :=
  match first_or_none
          (filter (fun r => String.eqb (Row.name r) (Product.name product))
                  (products w)) with
  | Some r0 => Row.id r0
  | None => Row.id (new_product_row product w)
  end.


(** ** Invariants of the two tables *)

(** [products]: ids strictly increasing along the scan (so no two rows
    share an id) and none beyond the [AUTOINCREMENT] counter. *)
Definition products_ok (ps : list Row.t) (seq : Z) : Prop :=
  StronglySorted (fun a b => Row.id a < Row.id b) ps /\
  Forall (fun r => Row.id r <= seq) ps.

(** [transactions]: the same for its ids, and every entry is booked on an
    id that [products] has handed out. *)
Definition ledger_ok (ts : list Txn.t) (seq products_seq : Z) : Prop :=
  StronglySorted (fun a b => Txn.id a < Txn.id b) ts /\
  Forall (fun t => Txn.id t <= seq) ts /\
  Forall (fun t => Txn.product_id t <= products_seq) ts.

Definition table_invariant (w : World) : Prop :=
  products_ok (products w) (products_seq w) /\
  ledger_ok (transactions w) (transactions_seq w) (products_seq w).





(** The number of products a report counts over all its categories. *)
Definition counted (d : categories_dict) : Z :=
  fold_right Z.add 0 (map (fun ke => count (snd ke)) d).


(** ** [search_products] and SQLite's [LIKE]

    A [str] is modelled character by character; for [LIKE] the characters
    of the model are the code points below 256 other than NUL, which SQLite
    matches as it does their UTF-8 encodings.  A pattern is taken to be
    within SQLite's length limit for [LIKE] patterns. *)

(** [sqlite3Tolower]: only the ASCII letters have another case. *)
Definition sqlite_tolower (c : ascii) : ascii :=
  let n := N_of_ascii c in
  if ((65 <=? n) && (n <=? 90))%N then ascii_of_N (n + 32) else c.

(** A pattern character that is no wildcard against a character of the
    text: equal, or equal ASCII letters up to case. *)
Definition like_char (c c2 : ascii) : bool :=
  (Ascii.eqb c c2
   || ((N_of_ascii c <? 128)%N && (N_of_ascii c2 <? 128)%N
       && Ascii.eqb (sqlite_tolower c) (sqlite_tolower c2)))%bool.

(** [text LIKE pattern] with the default settings: [%] stands for any run
    of characters, [_] for any one character, there is no escape
    character, and ASCII letters match whatever their case. *)
Fixpoint like (pattern : string) : string -> bool :=
  match pattern with
  | EmptyString =>
      fun text => match text with EmptyString => true | _ => false end
  | String c pattern' =>
      if Ascii.eqb c "%" then
        fix any (text : string) : bool :=
          (like pattern' text
           || match text with
              | EmptyString => false
              | String _ text' => any text'
              end)%bool
      else
        fun text =>
          match text with
          | EmptyString => false
          | String c2 text' =>
              ((Ascii.eqb c "_" || like_char c c2) && like pattern' text')%bool
          end
  end.

(** [SELECT * FROM products
     WHERE name LIKE ? OR category LIKE ? OR supplier LIKE ?] *)
Definition select_products_like (term : string) : M (list Row.t) :=
  fun w =>
    (Return (filter (fun r => (like term (Row.name r)
                               || like term (Row.category r)
                               || like term (Row.supplier r))%bool)
                    (products w)), w).

Definition search_products (search_term : string) : M (list Row.t) :=
  let term := ("%" ++ search_term ++ "%")%string in
  select_products_like term.

(** The same text but for the case of ASCII letters. *)
Fixpoint same_but_case (a b : string) : bool :=
  match a, b with
  | EmptyString, EmptyString => true
  | String x a', String y b' => (like_char x y && same_but_case a' b')%bool
  | _, _ => false
  end.

(** [term] occurs in [text], the case of ASCII letters aside. *)
Definition occurs_in (term text : string) : Prop :=
  exists before found after,
    text = (before ++ found ++ after)%string /\
    same_but_case term found = true.

(** No [%] and no [_] among the characters. *)
Fixpoint wildcard_free (term : string) : bool :=
  match term with
  | EmptyString => true
  | String c term' =>
      (negb (Ascii.eqb c "%") && negb (Ascii.eqb c "_")
       && wildcard_free term')%bool
  end.

(** Nothing but [%]. *)
Fixpoint only_percent (term : string) : bool :=
  match term with
  | EmptyString => true
  | String c term' => (Ascii.eqb c "%" && only_percent term')%bool
  end.


(** ** [add_sample_data] *)

(** The list [sample_products]: the four [Product]s are built, each reading
    the clock twice, before the loop runs. *)
Definition sample_products : M (list Product.t) :=
  p1 <- Product_init "Laptop" (float_of_decimal 99999 2) 15 "Gaming laptop"
                     "Electronics" 5 "TechCorp" ;;
  p2 <- Product_init "Office Chair" (float_of_decimal 29950 2) 8
                     "Ergonomic office chair" "Furniture" 3 "FurniCorp" ;;
  p3 <- Product_init "Coffee Beans" (float_of_decimal 1299 2) 50
                     "Premium coffee beans" "Food" 20 "CoffeeCorp" ;;
  p4 <- Product_init "Notebook" (float_of_decimal 399 2) 2 "A4 notebook"
                     "Stationery" 10 "PaperCorp" ;;
  ret [p1; p2; p3; p4].

(** [for product in sample_products: manager.add_product(product)] *)
Fixpoint add_each (sample_products : list Product.t) : M unit :=
  match sample_products with
  | [] => ret tt
  | product :: rest => add_product product ;; add_each rest
  end.

Definition add_sample_data : M unit :=
  sample_products <- sample_products ;;
  add_each sample_products.


(** ** [class InventoryUI]: the dialogues that write

    A dialogue runs at a terminal: the world of the manager and the lines
    still to be typed.  [input(prompt)] writes the prompt to the console
    (the console is the list of texts written, one per [print] or prompt,
    each text by its UTF-8 bytes) and takes the next line, or raises
    [EOFError] when there is none.  The dialogues tell a [ValueError] from
    other exceptions, so exceptions here carry their class. *)

Record Terminal : Type := mk_terminal {
  world : World;
  stdin : list string
}.

Inductive exception : Type :=
| ValueError
| EOFError
| Exception (message : string).

Inductive ui_result (A : Type) : Type :=
| Done (a : A)
| Raised (e : exception).
Arguments Done {A} a.
Arguments Raised {A} e.

Definition UI (A : Type) : Type := Terminal -> ui_result A * Terminal.

Definition ui_ret {A} (a : A) : UI A := fun t => (Done a, t).

Definition ui_raise {A} (e : exception) : UI A := fun t => (Raised e, t).

Definition ui_bind {A B} (c : UI A) (k : A -> UI B) : UI B :=
  fun t =>
    match c t with
    | (Done a, t') => k a t'
    | (Raised e, t') => (Raised e, t')
    end.

(** [try: body  except ...: handler] *)
Definition ui_try {A} (body : UI A) (handler : exception -> UI A) : UI A :=
  fun t =>
    match body t with
    | (Done a, t') => (Done a, t')
    | (Raised e, t') => handler e t'
    end.

(** A call of a method of the manager (or of [print]). *)
Definition manager {A} (c : M A) : UI A :=
  fun t =>
    match c (world t) with
    | (Return a, w) => (Done a, mk_terminal w (stdin t))
    | (Raise e, w) => (Raised (Exception e), mk_terminal w (stdin t))
    end.

Definition ui_print (line : string) : UI unit := manager (print line).

(** [input(prompt)] *)
Definition input (prompt : string) : UI string :=
  fun t =>
    let w := run (print prompt) (world t) in
    match stdin t with
    | [] => (Raised EOFError, mk_terminal w [])
    | line :: rest => (Done line, mk_terminal w rest)
    end.

(** [except ValueError: print(invalid)] followed by
    [except Exception as e: print(f"✗ Error: {e}")] *)
Definition ui_handler (invalid : string) (e : exception) : UI unit :=
  match e with
  | ValueError => ui_print invalid
  | EOFError => ui_print "✗ Error: EOF when reading a line"
  | Exception message => ui_print ("✗ Error: " ++ message)%string
  end.

(** [s or default] on strings *)
Definition or_default (s default : string) : string :=
  if String.eqb s "" then default else s.

(** The line feed of ["\n"]. *)
Definition nl : string := String (ascii_of_nat 10) "".

(** [updates[field] = value] when the typed text is not empty. *)
Definition set_if_typed (typed field : string) (value : pyval)
    (updates : list (string * pyval)) : list (string * pyval) :=
  if String.eqb typed "" then updates else updates ++ [(field, value)].

Section Dialogues.

(** Python's built-ins the dialogues call, taken as given: [s.strip()],
    [int(s)] and [float(s)] ([None] for a [ValueError]), and the text an
    f-string gives an [int] and a [float]. *)
Variable strip : string -> string.
Variable py_int : string -> option Z.
Variable py_float : string -> option float.
Variable str_int : Z -> string.
Variable str_float : float -> string.

Declare Scope ui_scope.
Notation "x <- c ;; k" := (ui_bind c (fun x => k))
  (at level 61, c at next level, right associativity) : ui_scope.
Notation "c ;; k" := (ui_bind c (fun _ => k))
  (at level 61, right associativity) : ui_scope.
Local Open Scope ui_scope.

Definition int_of (s : string) : UI Z :=
  match py_int s with
  | Some n => ui_ret n
  | None => ui_raise ValueError
  end.

Definition float_of (s : string) : UI float :=
  match py_float s with
  | Some x => ui_ret x
  | None => ui_raise ValueError
  end.

Definition add_product_ui : UI unit :=
  ui_print (nl ++ "--- Add New Product ---")%string ;;
  ui_try
    (line <- input "Product Name: " ;;
     let name := strip line in
     if String.eqb name "" then
       ui_print "Product name is required!"
     else
       existing <- manager (get_product_by_name name) ;;
       match existing with
       | Some _ => ui_print "Product already exists!"
       | None =>
           line <- input "Description (optional): " ;;
           let description := strip line in
           line <- input "Category (optional): " ;;
           let category := strip line in
           line <- input "Price: $" ;;
           price <- float_of line ;;
           line <- input "Initial Quantity: " ;;
           quantity <- int_of line ;;
           line <- input "Minimum Stock Level (default 10): " ;;
           min_stock <- int_of (or_default line "10") ;;
           line <- input "Supplier (optional): " ;;
           let supplier := strip line in
           product <- manager (Product_init name price quantity description
                                            category min_stock supplier) ;;
           added <- manager (add_product product) ;;
           if added then
             ui_print ("✓ Product '" ++ name ++ "' added successfully!")%string
           else
             ui_print "✗ Failed to add product!"
       end)
    (ui_handler "✗ Invalid input! Please enter correct data types.").

Definition update_product_ui : UI unit :=
  ui_try
    (line <- input (nl ++ "Enter Product ID to update: ")%string ;;
     product_id <- int_of line ;;
     product <- manager (get_product_by_id product_id) ;;
     match product with
     | None => ui_print "Product not found!"
     | Some product =>
         ui_print (nl ++ "Updating: " ++ Row.name product)%string ;;
         ui_print "Press Enter to keep current value" ;;
         let updates := [] in
         line <- input ("Name (" ++ Row.name product ++ "): ")%string ;;
         let new_name := strip line in
         let updates := set_if_typed new_name "name" (VStr new_name) updates in
         line <- input ("Description (" ++ Row.description product
                        ++ "): ")%string ;;
         let new_desc := strip line in
         let updates :=
           set_if_typed new_desc "description" (VStr new_desc) updates in
         line <- input ("Category (" ++ Row.category product
                        ++ "): ")%string ;;
         let new_category := strip line in
         let updates :=
           set_if_typed new_category "category" (VStr new_category) updates in
         line <- input ("Price ($" ++ str_float (Row.price product)
                        ++ "): ")%string ;;
         let new_price := strip line in
         updates <-
           (if String.eqb new_price "" then ui_ret updates
            else price <- float_of new_price ;;
                 ui_ret (updates ++ [("price", VFloat price)])) ;;
         line <- input ("Min Stock (" ++ str_int (Row.min_stock product)
                        ++ "): ")%string ;;
         let new_min_stock := strip line in
         updates <-
           (if String.eqb new_min_stock "" then ui_ret updates
            else min_stock <- int_of new_min_stock ;;
                 ui_ret (updates ++ [("min_stock", VInt min_stock)])) ;;
         line <- input ("Supplier (" ++ Row.supplier product
                        ++ "): ")%string ;;
         let new_supplier := strip line in
         let updates :=
           set_if_typed new_supplier "supplier" (VStr new_supplier) updates in
         match updates with
         | [] => ui_print "No changes made."
         | _ =>
             updated <- manager (update_product product_id updates) ;;
             if updated then
               ui_print "✓ Product updated successfully!"
             else
               ui_print "✗ Failed to update product!"
         end
     end)
    (ui_handler "✗ Invalid input!").

Definition stock_operation_ui (operation : string) : UI unit :=
  ui_try
    (line <- input (nl ++ "Enter Product ID to " ++ operation
                    ++ " stock: ")%string ;;
     product_id <- int_of line ;;
     product <- manager (get_product_by_id product_id) ;;
     match product with
     | None => ui_print "Product not found!"
     | Some product =>
         ui_print ("Product: " ++ Row.name product ++ " (Current Stock: "
                   ++ str_int (Row.quantity product) ++ ")")%string ;;
         line <- input ("Quantity to " ++ operation ++ ": ")%string ;;
         quantity <- int_of line ;;
         line <- input "Unit Price (optional, 0 for none): " ;;
         price <- float_of (or_default line "0") ;;
         line <- input "Notes (optional): " ;;
         let notes := strip line in
         success <-
           (if String.eqb operation "add" then
              manager (add_stock product_id quantity price notes)
            else
              manager (remove_stock product_id quantity price notes)) ;;
         if success then
           updated_product <- manager (get_product_by_id product_id) ;;
           match updated_product with
           | Some row =>
               ui_print ("✓ Stock updated! New quantity: "
                         ++ str_int (Row.quantity row))%string
           | None =>
               ui_raise (Exception "'NoneType' object is not subscriptable")
           end
         else
           ui_print "✗ Failed to update stock!"
     end)
    (ui_handler "✗ Invalid input!").

End Dialogues.

(** The four tables fields of two worlds agree. *)
Definition same_store (w w' : World) : Prop :=
  products w' = products w /\ transactions w' = transactions w /\
  products_seq w' = products_seq w /\
  transactions_seq w' = transactions_seq w.


(** A property of the stored tables alone: worlds with the same tables and
    counters agree on it. *)
Definition store_only (P : World -> Prop) : Prop :=
  forall w w', same_store w w' -> P w -> P w'.

(** From a terminal whose world satisfies [pre], the dialogue [c] ends in a
    world satisfying [post] (of its value) when it returns and [exc] when
    it raises. *)
Definition ui_triple {A} (pre : World -> Prop) (c : UI A)
    (post : A -> World -> Prop) (exc : World -> Prop) : Prop :=
  forall t, pre (world t) ->
            match c t with
            | (Done a, t') => post a (world t')
            | (Raised _, t') => exc (world t')
            end.


(** Relative to [w0], world [w] has exactly one product more, stored under
    a name that is not empty and that no product of [w0] has, and one
    ledger entry more. *)
Definition one_product_added (w0 w : World) : Prop :=
  exists product entry,
    Product.name product <> "" /\
    (forall r, In r (products w0) -> Row.name r <> Product.name product) /\
    products w = products w0 ++ [new_product_row product w0] /\
    transactions w = transactions w0 ++ [entry].


(** Relative to [w0], world [w] has the same products with the same ids
    and quantities, in the same order, and the same ledger. *)
Definition same_stock (w0 w : World) : Prop :=
  map Row.id (products w) = map Row.id (products w0) /\
  map Row.quantity (products w) = map Row.quantity (products w0) /\
  transactions w = transactions w0.

(** No stored product has a negative quantity. *)
Definition no_negative_stock (w : World) : Prop :=
  Forall (fun r => 0 <= Row.quantity r) (products w).


(** * Properties *)

(** ** Lists, sorting and lookups *)

Section SortFacts.
Context {A : Type} (le : A -> A -> bool).

Lemma insert_sorted_In (x y : A) (l : list A) :
  In y (insert_sorted le x l) <-> y = x \/ In y l.
Proof.
  induction l as [|z l IH]; simpl.
  - intuition.
  - destruct (le x z); simpl; [intuition | rewrite IH; intuition].
Qed.

Lemma order_by_In (y : A) (l : list A) :
  In y (order_by le l) <-> In y l.
Proof.
  induction l as [|x l IH]; simpl; [tauto|].
  rewrite insert_sorted_In, IH. intuition.
Qed.
End SortFacts.

Lemma first_or_none_filter_none {A} (f : A -> bool) (l : list A) :
  first_or_none (filter f l) = None -> forall x, In x l -> f x = false.
Proof.
  induction l as [|y l IH]; simpl; [tauto|].
  destruct (f y) eqn:E; simpl; [discriminate|].
  intros H x [<-|Hx]; auto.
Qed.


Lemma fold_left_max_ge (ids : list Z) (seq : Z) :
  seq <= fold_left Z.max ids seq /\
  forall i, In i ids -> i <= fold_left Z.max ids seq.
Proof.
  revert seq. induction ids as [|j ids IH]; simpl; intros seq.
  - split; [lia | tauto].
  - destruct (IH (Z.max seq j)) as [H1 H2]. split; [lia|].
    intros i [<-|Hi]; [lia | auto].
Qed.

Lemma next_rowid_fresh (seq : Z) (ids : list Z) (i : Z) :
  In i ids -> i < next_rowid seq ids.
Proof.
  intros Hi. unfold next_rowid.
  pose proof (proj2 (fold_left_max_ge ids seq) i Hi). lia.
Qed.

(** The listing is by name, whatever the order of insertion. *)
Example get_all_products_by_name :
  match result get_all_products
          (run (p2 <- notebook ;; add_product p2 ;;
                p1 <- laptop ;; add_product p1) empty_world) with
  | Return ps => map (fun r => (Row.id r, Row.name r)) ps
  | Raise _ => []
  end = [(2, "Laptop"); (1, "Notebook")].
Proof. reflexivity. Qed.

(** The history comes most recent first. *)
Example history_most_recent_first :
  match result (get_transaction_history None) world_laptop_notebook with
  | Return rows => map (fun h => (product_name h, Txn.date (txn h))) rows
  | Raise _ => []
  end = [("Notebook", "05"); ("Laptop", "02")].
Proof. reflexivity. Qed.

(** ** Low stock *)

(** C9: [get_low_stock_products] returns a product exactly when its quantity
    is at most its [min_stock]; a product whose quantity equals [min_stock]
    is among them.  The call changes nothing. *)
Theorem C9_low_stock_iff (w : World) :
  exists low,
    get_low_stock_products w = (Return low, w) /\
    (forall r, In r low <->
               In r (products w) /\ Row.quantity r <= Row.min_stock r) /\
    (forall r, In r (products w) -> Row.quantity r = Row.min_stock r ->
               In r low).
Proof.
  eexists. split; [reflexivity|].
  assert (Hiff : forall r,
    In r (filter (fun r => Row.quantity r <=? Row.min_stock r) (products w)) <->
    In r (products w) /\ Row.quantity r <= Row.min_stock r).
  { intros r. rewrite filter_In, Z.leb_le. tauto. }
  split; [exact Hiff|].
  intros r Hin Heq. apply Hiff. split; [assumption | lia].
Qed.

(** ** Stock operations *)

Lemma set_column_id (field : string) (v : pyval) (r : Row.t) :
  Row.id (set_column field v r) = Row.id r.
Proof.
  destruct v; simpl;
    repeat match goal with |- context [String.eqb ?a ?b] =>
             destruct (String.eqb a b) end; reflexivity.
Qed.

Lemma set_columns_id (updates : list (string * pyval)) (r : Row.t) :
  Row.id (set_columns updates r) = Row.id r.
Proof.
  unfold set_columns. revert r.
  induction updates as [|u us IH]; simpl; intros r; [reflexivity|].
  rewrite IH. apply set_column_id.
Qed.



(** Unfolds a lookup of a product by id down to the filter on the table. *)
Ltac unfold_lookup :=
  unfold quantity_of, result, get_product_by_id, bind,
    select_products_where_id, ret.

Lemma quantity_of_found (product_id : Z) (w : World) (q : Z) :
  quantity_of product_id w = Some q ->
  exists row rest,
    filter (fun r => Row.id r =? product_id) (products w) = row :: rest /\
    Row.quantity row = q.
Proof.
  unfold_lookup; simpl.
  destruct (filter _ (products w)) as [|row rest]; simpl; [discriminate|].
  intros [= <-]. eauto.
Qed.



Lemma add_stock_found (product_id quantity : Z) (price : float)
    (notes : string) (w : World) (row : Row.t) (rest : list Row.t) :
  filter (fun r => Row.id r =? product_id) (products w) = row :: rest ->
  add_stock product_id quantity price notes w
  = (Return true,
     after_stock_write product_id (Row.quantity row + quantity) "STOCK_IN"
                       quantity price notes w).
Proof.
  intros Hf.
  unfold add_stock, try_except, bind, get_product_by_id,
    select_products_where_id, ret; simpl.
  rewrite Hf. reflexivity.
Qed.

Lemma remove_stock_found (product_id quantity : Z) (price : float)
    (notes : string) (w : World) (row : Row.t) (rest : list Row.t) :
  filter (fun r => Row.id r =? product_id) (products w) = row :: rest ->
  quantity <= Row.quantity row ->
  remove_stock product_id quantity price notes w
  = (Return true,
     after_stock_write product_id (Row.quantity row - quantity) "STOCK_OUT"
                       quantity price notes w).
Proof.
  intros Hf Hq.
  unfold remove_stock, try_except, bind, get_product_by_id,
    select_products_where_id, ret; simpl.
  rewrite Hf; simpl.
  destruct (Z.ltb_spec (Row.quantity row) quantity); [lia | reflexivity].
Qed.

Lemma stock_missing (product_id quantity : Z) (price : float)
    (notes : string) (w : World) :
  filter (fun r => Row.id r =? product_id) (products w) = [] ->
  add_stock product_id quantity price notes w = (Return false, w) /\
  remove_stock product_id quantity price notes w = (Return false, w).
Proof.
  intros Hf.
  unfold add_stock, remove_stock, try_except, bind, get_product_by_id,
    select_products_where_id, ret; simpl.
  rewrite Hf. split; reflexivity.
Qed.

(** C6: an [OUT] adjustment of more than the product's current quantity is
    refused: [remove_stock] prints "Insufficient stock available!" and
    returns [False]; no product row changes (the quantity stays) and the
    ledger gets no entry. *)
Theorem C6_remove_stock_insufficient (w : World) (product_id delta : Z)
    (price : float) (notes : string) (q : Z) :
  quantity_of product_id w = Some q ->
  q < delta ->
  result (remove_stock product_id delta price notes) w = Return false /\
  stdout (run (remove_stock product_id delta price notes) w)
    = stdout w ++ ["Insufficient stock available!"] /\
  quantity_of product_id (run (remove_stock product_id delta price notes) w)
    = Some q /\
  same_tables w (run (remove_stock product_id delta price notes) w).
Proof.
  intros Hq Hlt.
  destruct (quantity_of_found _ _ _ Hq) as (row & rest & Hf & Hrow).
  assert (E : remove_stock product_id delta price notes w
              = (Return false,
                 run (print "Insufficient stock available!") w)).
  { unfold remove_stock, try_except, bind, get_product_by_id,
      select_products_where_id, ret; simpl.
    rewrite Hf; simpl.
    destruct (Z.ltb_spec (Row.quantity row) delta); [reflexivity | lia]. }
  unfold result, run. rewrite E. simpl.
  repeat split. exact Hq.
Qed.

Lemma C6_remove_stock_insufficient_witness :
  result (remove_stock 1 16 (S754_zero false) "sale") world_laptop
    = Return false /\
  stdout (run (remove_stock 1 16 (S754_zero false) "sale") world_laptop)
    = stdout world_laptop ++ ["Insufficient stock available!"] /\
  quantity_of 1 (run (remove_stock 1 16 (S754_zero false) "sale") world_laptop)
    = Some 15 /\
  same_tables world_laptop
    (run (remove_stock 1 16 (S754_zero false) "sale") world_laptop).
Proof.
  apply (C6_remove_stock_insufficient world_laptop 1 16 (S754_zero false)
           "sale" 15); [reflexivity | lia].
Defined.







(** ** [update_product] *)

Lemma set_column_quantity (field : string) (v : pyval) (r : Row.t) :
  Row.quantity (set_column field v r)
  = match quantity_kwarg [(field, v)] with
    | Some n => n
    | None => Row.quantity r
    end.
Proof.
  destruct v; simpl;
    repeat match goal with |- context [String.eqb ?a ?b] =>
             destruct (String.eqb a b) end; reflexivity.
Qed.

Lemma set_columns_quantity (updates : list (string * pyval)) (r : Row.t) :
  Row.quantity (set_columns updates r)
  = match quantity_kwarg updates with
    | Some n => n
    | None => Row.quantity r
    end.
Proof.
  unfold set_columns. revert r.
  induction updates as [|[field v] us IH]; intros r; [reflexivity|].
  cbn [fold_left fst snd quantity_kwarg]. rewrite IH.
  destruct (quantity_kwarg us); [reflexivity|].
  apply set_column_quantity.
Qed.

Lemma quantity_kwarg_app (us vs : list (string * pyval)) :
  quantity_kwarg (us ++ vs)
  = match quantity_kwarg vs with
    | Some n => Some n
    | None => quantity_kwarg us
    end.
Proof.
  induction us as [|[field v] us IH]; simpl.
  - destruct (quantity_kwarg vs); reflexivity.
  - rewrite IH. destruct (quantity_kwarg vs); reflexivity.
Qed.

Lemma quantity_kwarg_collect (kwargs : list (string * pyval)) :
  quantity_kwarg (collect_updates kwargs) = quantity_kwarg kwargs.
Proof.
  induction kwargs as [|[field v] rest IH]; [reflexivity|].
  cbn [collect_updates quantity_kwarg].
  destruct (is_valid_field field) eqn:Ev.
  - cbn [quantity_kwarg]. rewrite IH. reflexivity.
  - rewrite IH. destruct (quantity_kwarg rest); [reflexivity|].
    destruct v; try reflexivity.
    destruct (String.eqb_spec field "quantity") as [->|]; [|reflexivity].
    discriminate Ev.
Qed.

(** What [update_product] does to the world, by the fields it keeps. *)
Lemma update_product_run (product_id : Z) (kwargs : list (string * pyval))
    (w : World) :
  update_product product_id kwargs w
  = match collect_updates kwargs with
    | [] => (Return false, w)
    | updates =>
        (Return true,
         mk_world
           (map (fun r => if Row.id r =? product_id
                          then set_columns
                                 (updates ++
                                  [("last_updated", VStr (clock w (ticks w)))])
                                 r
                          else r)
                (products w))
           (transactions w) (products_seq w) (transactions_seq w)
           (clock w) (S (ticks w)) (stdout w))
    end.
Proof.
  unfold update_product, try_except.
  destruct (collect_updates kwargs); reflexivity.
Qed.








(** ** Transaction history and [delete_product] *)

Lemma history_rows_have_live_product (ps : list Row.t) (ts : list Txn.t)
    (h : history_row) :
  In h (order_by date_desc (flat_map (join_products ps) ts)) <->
  exists t p, In t ts /\ In p ps /\ Txn.product_id t = Row.id p /\
              h = mk_history_row t (Row.name p).
Proof.
  rewrite order_by_In, in_flat_map. unfold join_products. split.
  - intros (t & Ht & Hh). apply in_map_iff in Hh as (p & <- & Hp).
    apply filter_In in Hp as [Hp He]. apply Z.eqb_eq in He. eauto 7.
  - intros (t & p & Ht & Hp & He & ->). exists t. split; [assumption|].
    apply (in_map (fun p => mk_history_row t (Row.name p))).
    apply filter_In. split; [assumption|].
    apply Z.eqb_eq, He.
Qed.


(** C10: [get_transaction_history(0)] is [get_transaction_history()]: the
    [WHERE t.product_id = ?] filter is there only for a truthy id, so for 0
    the call returns what the call without an id returns, the joined entries
    of all products and not only those of a product 0; for every other id
    the filtered query runs. *)
Theorem C10_history_zero_unfiltered (w : World) :
  (exists rows,
     get_transaction_history (Some 0) w = (Return rows, w) /\
     get_transaction_history None w = (Return rows, w) /\
     forall h, In h rows <->
               exists t p, In t (transactions w) /\ In p (products w) /\
                           Txn.product_id t = Row.id p /\
                           h = mk_history_row t (Row.name p)) /\
  (forall i, i <> 0 ->
     get_transaction_history (Some i) w = select_history (Some i) w).
Proof.
  split.
  - eexists. split; [reflexivity|]. split; [reflexivity|].
    intros h. apply history_rows_have_live_product.
  - intros i Hi. unfold get_transaction_history, truthy.
    destruct (Z.eqb_spec i 0); [contradiction | reflexivity].
Qed.



(** ** [add_product] *)



(** ** The report *)


Lemma dict_get_set_same (k : string) (e : category_entry) (d : categories_dict) :
  dict_get k (dict_set k e d) = Some e.
Proof.
  induction d as [|[k' e'] d IH]; simpl.
  - rewrite String.eqb_refl. reflexivity.
  - destruct (String.eqb k' k) eqn:E; simpl; rewrite E; auto.
Qed.

Lemma dict_get_set_other (k c : string) (e : category_entry)
    (d : categories_dict) :
  k <> c -> dict_get c (dict_set k e d) = dict_get c d.
Proof.
  intros Hne. induction d as [|[k' e'] d IH]; simpl.
  - destruct (String.eqb_spec k c); [contradiction | reflexivity].
  - destruct (String.eqb_spec k' k) as [->|Hk]; simpl.
    + destruct (String.eqb_spec k c); [contradiction | reflexivity].
    + destruct (String.eqb k' c); [reflexivity | exact IH].
Qed.

(** One turn of the loop, read at its own bucket and at the others. *)
Lemma categories_step_get (d d1 : categories_dict) (p : Row.t) :
  categories_step d p = Return d1 ->
  (exists e1,
     entry_loop (entry_or_new (category_key p) d) [p] = Return e1 /\
     dict_get (category_key p) d1 = Some e1) /\
  (forall c, category_key p <> c -> dict_get c d1 = dict_get c d).
Proof.
  unfold categories_step, entry_or_new. cbn [entry_loop].
  set (k := category_key p).
  destruct (dict_get k d) as [e|] eqn:Eg.
  - rewrite Eg. cbn [count value].
    destruct (stock_value p) as [v|]; [|discriminate]. cbn [and_then].
    destruct (py_add (value e) v) as [s|]; [|discriminate]. cbn [and_then].
    intros [= <-]. split.
    + eexists. split; [reflexivity | apply dict_get_set_same].
    + intros c Hc. apply dict_get_set_other, Hc.
  - rewrite dict_get_set_same. cbn [count value].
    destruct (stock_value p) as [v|]; [|discriminate]. cbn [and_then].
    destruct (py_add (PInt 0) v) as [s|]; [|discriminate]. cbn [and_then].
    intros [= <-]. split.
    + eexists. split; [reflexivity | apply dict_get_set_same].
    + intros c Hc. rewrite !dict_get_set_other by exact Hc. reflexivity.
Qed.

Lemma entry_loop_cons (e e1 : category_entry) (p : Row.t) (b : list Row.t) :
  entry_loop e [p] = Return e1 ->
  entry_loop e (p :: b) = entry_loop e1 b.
Proof.
  cbn [entry_loop].
  destruct (stock_value p) as [v|]; [|discriminate]. cbn [and_then].
  destruct (py_add (value e) v) as [s|]; [|discriminate]. cbn [and_then].
  intros [= <-]. reflexivity.
Qed.

(** The loop invariant: every bucket holds what [entry_loop] makes of its
    products; a category none of the products falls in is left alone. *)
Lemma categories_loop_get (ps : list Row.t) :
  forall (d d' : categories_dict),
  categories_loop d ps = Return d' ->
  forall c,
    match bucket c ps with
    | [] => dict_get c d' = dict_get c d
    | b => exists e, entry_loop (entry_or_new c d) b = Return e /\
                     dict_get c d' = Some e
    end.
Proof.
  induction ps as [|p ps IH]; intros d d' Hloop c.
  - injection Hloop as <-. reflexivity.
  - cbn [categories_loop] in Hloop.
    destruct (categories_step d p) as [d1|] eqn:Estep; [|discriminate].
    cbn [and_then] in Hloop.
    destruct (categories_step_get _ _ _ Estep) as [(e1 & He1 & Hg1) Hother].
    specialize (IH d1 d' Hloop c).
    unfold bucket in *. cbn [filter].
    destruct (String.eqb_spec (category_key p) c) as [<-|Hne].
    + rewrite (entry_loop_cons _ _ _ _ He1).
      destruct (filter _ ps) as [|p' b'].
      * exists e1. split; [reflexivity | congruence].
      * unfold entry_or_new in IH. rewrite Hg1 in IH. exact IH.
    + unfold entry_or_new in *. rewrite (Hother c Hne) in IH. exact IH.
Qed.

Lemma entry_loop_sum (b : list Row.t) :
  forall e e', entry_loop e b = Return e' ->
  py_sum_from (value e) (map stock_value b) = Return (value e') /\
  count e' = count e + Z.of_nat (List.length b).
Proof.
  induction b as [|p b IH]; intros e e' H.
  - injection H as <-. simpl. split; [reflexivity | lia].
  - cbn [entry_loop] in H. cbn [map py_sum_from List.length].
    destruct (stock_value p) as [v|]; [|discriminate]. cbn [and_then] in H.
    destruct (py_add (value e) v) as [s|]; [|discriminate].
    cbn [and_then] in H. destruct (IH _ _ H) as [Hs Hc].
    cbn [value count] in Hs, Hc. split; [exact Hs | lia].
Qed.

(** *** [float(n)] returns for every integer SQLite stores *)

Lemma digits2_pos_size (p : positive) : digits2_pos p = Pos.size p.
Proof. induction p; simpl; congruence. Qed.

Lemma Zdigits2_nonneg (m : Z) : 0 <= Zdigits2 m.
Proof. destruct m; simpl; lia. Qed.

Lemma Zdigits2_upper (m k : Z) :
  0 <= m < 2 ^ k -> 0 <= k -> Zdigits2 m <= k.
Proof.
  intros [Hm Hlt] Hk. destruct m as [|p|p]; simpl; [lia | | lia].
  rewrite digits2_pos_size.
  pose proof (Pos.size_le p) as Hs.
  apply Pos2Z.pos_le_pos in Hs. rewrite Pos2Z.inj_pow in Hs.
  change (Z.pos p~0) with (2 * Z.pos p) in Hs.
  assert (H2 : 2 ^ Z.pos (Pos.size p) < 2 ^ (k + 1)).
  { rewrite Z.pow_add_r, Z.pow_1_r by lia. lia. }
  apply Z.pow_lt_mono_r_iff in H2; lia.
Qed.

Lemma shr_1_bounds (mrs : shr_record) :
  0 <= shr_m mrs -> 0 <= shr_m (shr_1 mrs) <= shr_m mrs.
Proof.
  destruct mrs as [m r s]. simpl.
  destruct m as [|p|p]; [simpl; lia | | lia].
  destruct p; simpl; lia.
Qed.

Lemma iter_shr_1_bounds (p : positive) :
  forall mrs, 0 <= shr_m mrs ->
              0 <= shr_m (iter_pos shr_1 p mrs) <= shr_m mrs.
Proof.
  induction p as [p IH|p IH|]; intros mrs H; simpl.
  - pose proof (shr_1_bounds mrs H) as H1.
    pose proof (IH _ (proj1 H1)) as H2.
    pose proof (IH _ (proj1 H2)) as H3. lia.
  - pose proof (IH _ H) as H2.
    pose proof (IH _ (proj1 H2)) as H3. lia.
  - apply shr_1_bounds, H.
Qed.

Lemma shr_record_of_loc_m (m : Z) (l : location) :
  shr_m (shr_record_of_loc m l) = m.
Proof. destruct l as [|[]]; reflexivity. Qed.

Lemma shr_fexp_bounds (m e : Z) (l : location) :
  0 <= m ->
  0 <= shr_m (fst (shr_fexp prec emax m e l)) <= m /\
  snd (shr_fexp prec emax m e l)
    <= Z.max e (fexp prec emax (Zdigits2 m + e)).
Proof.
  intros Hm. unfold shr_fexp, shr.
  destruct (fexp prec emax (Zdigits2 m + e) - e) as [|p|p] eqn:E; simpl.
  - rewrite shr_record_of_loc_m. lia.
  - pose proof (iter_shr_1_bounds p (shr_record_of_loc m l)) as H.
    rewrite shr_record_of_loc_m in H. split; [apply H, Hm | lia].
  - rewrite shr_record_of_loc_m. lia.
Qed.

Lemma round_nearest_even_bounds (m : Z) (l : location) :
  m <= round_nearest_even m l <= m + 1.
Proof.
  unfold round_nearest_even. destruct l as [|[]]; try lia.
  destruct (Z.even m); lia.
Qed.

Lemma fexp_le (d b : Z) : d <= b -> fexp prec emax d <= Z.max (b - 53) (-1074).
Proof. unfold fexp, emin, prec, emax. lia. Qed.

Lemma binary_round_aux_not_infinity (s : bool) (mx ex : Z) (lx : location) :
  0 <= mx < 2 ^ 117 -> ex <= 0 ->
  forall s', binary_round_aux prec emax s mx ex lx <> S754_infinity s'.
Proof.
  intros [Hm Hlt] Hex s'. unfold binary_round_aux.
  pose proof (shr_fexp_bounds mx ex lx Hm) as [Hm1 He1].
  destruct (shr_fexp prec emax mx ex lx) as [mrs' e'].
  cbn [fst snd] in Hm1, He1.
  pose proof (round_nearest_even_bounds (shr_m mrs')
                (loc_of_shr_record mrs')) as Hr.
  set (m2 := round_nearest_even (shr_m mrs') (loc_of_shr_record mrs')) in *.
  assert (Hm2 : 0 <= m2) by lia.
  pose proof (shr_fexp_bounds m2 e' loc_Exact Hm2) as [_ He2].
  destruct (shr_fexp prec emax m2 e' loc_Exact) as [mrs'' e''].
  cbn [fst snd] in He2.
  assert (Hd1 : Zdigits2 mx <= 117) by (apply Zdigits2_upper; lia).
  assert (Hd2 : Zdigits2 m2 <= 118).
  { apply Zdigits2_upper; [|lia].
    change (2 ^ 118) with (2 * 2 ^ 117). lia. }
  pose proof (Zdigits2_nonneg mx). pose proof (Zdigits2_nonneg m2).
  pose proof (fexp_le (Zdigits2 mx + ex) 117 ltac:(lia)) as Hf1.
  assert (He' : e' <= 64) by lia.
  pose proof (fexp_le (Zdigits2 m2 + e') 182 ltac:(lia)) as Hf2.
  destruct (shr_m mrs''); try discriminate.
  destruct (Z.leb_spec e'' (emax - prec)); [discriminate|].
  unfold emax, prec in *. lia.
Qed.

Lemma iter_xO_val (m k : positive) :
  Z.pos (Pos.iter xO m k) = Z.pos m * 2 ^ Z.pos k.
Proof.
  induction k as [|k IH] using Pos.peano_ind.
  - simpl. lia.
  - rewrite Pos.iter_succ, Pos2Z.inj_xO, IH, Pos2Z.inj_succ, Z.pow_succ_r by lia.
    lia.
Qed.

Lemma float_of_int_returns (n : Z) :
  - 2 ^ 63 <= n < 2 ^ 63 -> exists x, float_of_int n = Return x.
Proof.
  intros Hn. unfold float_of_int.
  destruct (binary_normalize prec emax n 0 false) as [| s' | |] eqn:E;
    try (eexists; reflexivity).
  exfalso. revert E.
  assert (Hpos : forall s (m : positive), Z.pos m <= 2 ^ 63 ->
            binary_round prec emax s m 0 <> S754_infinity s').
  { intros s m Hm. unfold binary_round, shl_align.
    pose proof (Zdigits2_upper (Z.pos m) 64 ltac:(lia) ltac:(lia)) as Hd.
    cbn [Zdigits2] in Hd.
    destruct (fexp prec emax (Z.pos (digits2_pos m) + 0) - 0) as [|k|k] eqn:Ek;
      try (apply binary_round_aux_not_infinity; lia).
    apply binary_round_aux_not_infinity.
    - rewrite iter_xO_val. split; [lia|].
      assert (Hk : Z.pos k <= 52).
      { unfold fexp, emin, prec, emax in Ek. lia. }
      assert (2 ^ Z.pos k <= 2 ^ 52) by (apply Z.pow_le_mono_r; lia).
      change (2 ^ 117) with (2 ^ 65 * 2 ^ 52).
      assert (Z.pos m < 2 ^ 65) by lia. nia.
    - unfold fexp, emin, prec, emax in *. lia. }
  destruct n as [|m|m]; cbn [binary_normalize].
  - discriminate.
  - apply Hpos. lia.
  - apply Hpos. lia.
Qed.

Lemma stock_value_returns (p : Row.t) :
  - 2 ^ 63 <= Row.quantity p < 2 ^ 63 ->
  exists x, stock_value p = Return (PFloat x).
Proof.
  intros H. unfold stock_value, py_mul_float_int.
  destruct (float_of_int_returns _ H) as [y ->]. eexists. reflexivity.
Qed.

(** *** The report returns *)

Lemma py_add_addable (v : pynum) (x : float) :
  addable v -> exists y, py_add v (PFloat x) = Return (PFloat y).
Proof.
  destruct v as [n|y]; simpl.
  - intros ->. eexists. reflexivity.
  - intros _. eexists. reflexivity.
Qed.

Lemma py_sum_from_returns (items : list (outcome pynum)) :
  forall acc, addable acc ->
  (forall o, In o items -> exists x, o = Return (PFloat x)) ->
  exists total, py_sum_from acc items = Return total.
Proof.
  induction items as [|o items IH]; intros acc Hacc Hall.
  - eexists. reflexivity.
  - destruct (Hall o (or_introl eq_refl)) as [x ->].
    destruct (py_add_addable acc x Hacc) as [y Hy].
    cbn [py_sum_from]. rewrite Hy. apply IH; [exact I|].
    intros o' Ho'. apply Hall. right. exact Ho'.
Qed.

Definition addable_dict (d : categories_dict) : Prop :=
  forall k e, dict_get k d = Some e -> addable (value e).

Lemma addable_dict_set (k : string) (e : category_entry) (d : categories_dict) :
  addable (value e) -> addable_dict d -> addable_dict (dict_set k e d).
Proof.
  intros He Hd c e'. destruct (String.eqb_spec k c) as [->|Hne].
  - rewrite dict_get_set_same. intros [= <-]. exact He.
  - rewrite dict_get_set_other by exact Hne. apply Hd.
Qed.

Lemma categories_step_returns (d : categories_dict) (p : Row.t) (x : float) :
  addable_dict d -> stock_value p = Return (PFloat x) ->
  exists d1, categories_step d p = Return d1 /\ addable_dict d1.
Proof.
  intros Hd Hv. unfold categories_step.
  set (k := category_key p).
  destruct (dict_get k d) as [e|] eqn:Eg.
  - rewrite Eg, Hv. cbn [and_then count value].
    destruct (py_add_addable (value e) x (Hd _ _ Eg)) as [y ->].
    cbn [and_then]. eexists. split; [reflexivity|].
    apply addable_dict_set; [exact I | exact Hd].
  - rewrite dict_get_set_same, Hv. cbn [and_then count value].
    destruct (py_add_addable (PInt 0) x eq_refl) as [y ->].
    cbn [and_then]. eexists. split; [reflexivity|].
    apply addable_dict_set; [exact I|].
    apply addable_dict_set; [reflexivity | exact Hd].
Qed.

Lemma categories_loop_returns (ps : list Row.t) :
  forall d, addable_dict d ->
  (forall p, In p ps -> exists x, stock_value p = Return (PFloat x)) ->
  exists d', categories_loop d ps = Return d'.
Proof.
  induction ps as [|p ps IH]; intros d Hd Hall.
  - eexists. reflexivity.
  - destruct (Hall p (or_introl eq_refl)) as [x Hx].
    destruct (categories_step_returns d p x Hd Hx) as (d1 & E & Hd1).
    cbn [categories_loop]. rewrite E. cbn [and_then].
    apply IH; [exact Hd1|]. intros p' Hp'. apply Hall. right. exact Hp'.
Qed.




(** * Further properties of the manager *)

(** ** [add_product], lookups and [delete_product] *)

Lemma filter_all_false {A} (f : A -> bool) (l : list A) :
  (forall x, In x l -> f x = false) -> filter f l = [].
Proof.
  induction l as [|y l IH]; simpl; intros H; [reflexivity|].
  rewrite (H y (or_introl eq_refl)). apply IH. auto.
Qed.

Lemma filter_all_true {A} (f : A -> bool) (l : list A) :
  (forall x, In x l -> f x = true) -> filter f l = l.
Proof.
  induction l as [|y l IH]; simpl; intros H; [reflexivity|].
  rewrite (H y (or_introl eq_refl)), IH; auto.
Qed.


(** The world [add_product] leaves. *)
Lemma add_product_run (product : Product.t) (w : World) :
  add_product product w
  = (Return true,
     mk_world
       (products w ++ [new_product_row product w])
       (transactions w ++
        [initial_stock_entry product (initial_stock_owner product w) w])
       (Row.id (new_product_row product w))
       (next_rowid (transactions_seq w) (map Txn.id (transactions w)))
       (clock w) (S (ticks w)) (stdout w)).
Proof.
  cbv [add_product try_except bind insert_product get_product_by_name
       select_products_where_name ret _log_transaction now_isoformat
       insert_transaction with_products with_transactions
       products transactions products_seq transactions_seq clock ticks
       stdout initial_stock_owner initial_stock_entry].
  rewrite filter_app. cbn [filter Row.name]. rewrite String.eqb_refl.
  destruct w as [ps ts pseq tseq clk tk out].
  cbn [products transactions products_seq transactions_seq clock ticks
       stdout].
  destruct (filter _ ps) as [|r0 rest]; reflexivity.
Qed.











(** ** The tables keep their invariants *)

Section SortedBy.
Context {A : Type} (key : A -> Z).

Lemma sorted_by_app_last (l : list A) (x : A) :
  StronglySorted (fun a b => key a < key b) l ->
  (forall a, In a l -> key a < key x) ->
  StronglySorted (fun a b => key a < key b) (l ++ [x]).
Proof.
  induction 1 as [|a l Hs IH Ha]; intros Hx; simpl.
  - constructor; constructor.
  - constructor.
    + apply IH. intros b Hb. apply Hx. right. exact Hb.
    + apply Forall_app. split; [exact Ha|].
      constructor; [|constructor]. apply Hx. left. reflexivity.
Qed.

Lemma sorted_by_filter (f : A -> bool) (l : list A) :
  StronglySorted (fun a b => key a < key b) l ->
  StronglySorted (fun a b => key a < key b) (filter f l).
Proof.
  induction 1 as [|a l Hs IH Ha]; simpl; [constructor|].
  destruct (f a); [|exact IH]. constructor; [exact IH|].
  rewrite Forall_forall in *. intros b Hb. apply Ha.
  apply filter_In in Hb. tauto.
Qed.

Lemma sorted_by_map (g : A -> A) (l : list A) :
  (forall a, key (g a) = key a) ->
  StronglySorted (fun a b => key a < key b) l ->
  StronglySorted (fun a b => key a < key b) (map g l).
Proof.
  intros Hg. induction 1 as [|a l Hs IH Ha]; simpl; constructor;
    [exact IH|].
  rewrite Forall_forall in *. intros b Hb.
  apply in_map_iff in Hb as (b' & <- & Hb'). rewrite !Hg. auto.
Qed.

End SortedBy.

Lemma set_column_preserves_id_fun (product_id : Z)
    (updates : list (string * pyval)) (r : Row.t) :
  Row.id (if Row.id r =? product_id then set_columns updates r else r)
  = Row.id r.
Proof.
  destruct (Row.id r =? product_id); [apply set_columns_id | reflexivity].
Qed.

Lemma products_ok_map (g : Row.t -> Row.t) (ps : list Row.t) (seq : Z) :
  (forall r, Row.id (g r) = Row.id r) ->
  products_ok ps seq -> products_ok (map g ps) seq.
Proof.
  intros Hg [Hs Hb]. split; [apply sorted_by_map; assumption|].
  rewrite Forall_forall in *. intros r Hr.
  apply in_map_iff in Hr as (r' & <- & Hr'). rewrite Hg. auto.
Qed.

Lemma products_ok_filter (f : Row.t -> bool) (ps : list Row.t) (seq : Z) :
  products_ok ps seq -> products_ok (filter f ps) seq.
Proof.
  intros [Hs Hb]. split; [apply sorted_by_filter; assumption|].
  rewrite Forall_forall in *. intros r Hr. apply filter_In in Hr.
  apply Hb. tauto.
Qed.

Lemma products_ok_insert (ps : list Row.t) (seq : Z) (r : Row.t) :
  Row.id r = next_rowid seq (map Row.id ps) ->
  products_ok ps seq -> products_ok (ps ++ [r]) (Row.id r).
Proof.
  intros Hr [Hs Hb]. split.
  - apply sorted_by_app_last; [exact Hs|]. intros a Ha. rewrite Hr.
    apply next_rowid_fresh, in_map, Ha.
  - apply Forall_app. split; [|constructor; [lia | constructor]].
    rewrite Forall_forall. intros a Ha. rewrite Hr.
    pose proof (next_rowid_fresh seq (map Row.id ps) (Row.id a)
                  (in_map Row.id _ _ Ha)). lia.
Qed.

Lemma next_rowid_above_seq (seq : Z) (ids : list Z) :
  seq < next_rowid seq ids.
Proof.
  unfold next_rowid. pose proof (proj1 (fold_left_max_ge ids seq)). lia.
Qed.

Lemma ledger_ok_append (ts : list Txn.t) (seq pseq : Z) (t : Txn.t) :
  Txn.id t = next_rowid seq (map Txn.id ts) ->
  Txn.product_id t <= pseq ->
  ledger_ok ts seq pseq -> ledger_ok (ts ++ [t]) (Txn.id t) pseq.
Proof.
  intros Hid Hp (Hs & Hb & Hpid). split; [|split].
  - apply sorted_by_app_last; [exact Hs|]. intros a Ha. rewrite Hid.
    apply next_rowid_fresh, in_map, Ha.
  - apply Forall_app. split; [|constructor; [lia | constructor]].
    rewrite Forall_forall. intros a Ha. rewrite Hid.
    pose proof (next_rowid_fresh seq (map Txn.id ts) (Txn.id a)
                  (in_map Txn.id _ _ Ha)). lia.
  - apply Forall_app. split; [exact Hpid|].
    constructor; [exact Hp | constructor].
Qed.

Lemma ledger_ok_products_seq (ts : list Txn.t) (seq pseq pseq' : Z) :
  pseq <= pseq' -> ledger_ok ts seq pseq -> ledger_ok ts seq pseq'.
Proof.
  intros Hle (Hs & Hb & Hpid). split; [exact Hs|]. split; [exact Hb|].
  rewrite Forall_forall in *. intros t Ht. specialize (Hpid t Ht). lia.
Qed.

(** [remove_stock] refused for insufficient stock: only the console
    changes. *)
Lemma remove_stock_refused (product_id quantity : Z) (price : float)
    (notes : string) (w : World) (row : Row.t) (rest : list Row.t) :
  filter (fun r => Row.id r =? product_id) (products w) = row :: rest ->
  Row.quantity row < quantity ->
  remove_stock product_id quantity price notes w
  = (Return false, run (print "Insufficient stock available!") w).
Proof.
  intros Hf Hq.
  unfold remove_stock, try_except, bind, get_product_by_id,
    select_products_where_id, ret; simpl.
  rewrite Hf; simpl.
  destruct (Z.ltb_spec (Row.quantity row) quantity); [reflexivity | lia].
Qed.

Lemma found_row_bounded (product_id : Z) (w : World) (row : Row.t)
    (rest : list Row.t) :
  table_invariant w ->
  filter (fun r => Row.id r =? product_id) (products w) = row :: rest ->
  In row (products w) /\ Row.id row = product_id /\
  product_id <= products_seq w.
Proof.
  intros [[_ Hb] _] Hf.
  assert (H : In row (row :: rest)) by (left; reflexivity).
  rewrite <- Hf in H. apply filter_In in H as [Hin He].
  apply Z.eqb_eq in He. rewrite Forall_forall in Hb.
  specialize (Hb row Hin). repeat split; [assumption | assumption | lia].
Qed.

Lemma table_invariant_stock_write (product_id n : Z) (ty : string)
    (quantity : Z) (price : float) (notes : string) (w : World) :
  table_invariant w -> product_id <= products_seq w ->
  table_invariant
    (after_stock_write product_id n ty quantity price notes w).
Proof.
  intros [Hp Hl] Hle. split; cbn [after_stock_write products transactions
                                  products_seq transactions_seq].
  - apply products_ok_map; [|exact Hp].
    intros r. apply set_column_preserves_id_fun.
  - exact (ledger_ok_append (transactions w) (transactions_seq w)
             (products_seq w)
             (ledger_entry w (S (ticks w)) product_id ty quantity price
                           notes) eq_refl Hle Hl).
Qed.

Lemma table_invariant_add_product (w : World) (product : Product.t) :
  table_invariant w -> table_invariant (run (add_product product) w).
Proof.
  intros [Hp Hl]. unfold run. rewrite add_product_run.
  split; cbn [snd products transactions products_seq transactions_seq].
  - exact (products_ok_insert (products w) (products_seq w)
             (new_product_row product w) eq_refl Hp).
  - pose proof (next_rowid_above_seq (products_seq w)
                  (map Row.id (products w))) as Hseq.
    refine (ledger_ok_append (transactions w) (transactions_seq w) _
              (initial_stock_entry product (initial_stock_owner product w) w)
              eq_refl _ _).
    + cbn [initial_stock_entry Txn.product_id new_product_row Row.id].
      unfold initial_stock_owner.
      destruct (filter _ (products w)) as [|r0 rest] eqn:Hf;
        cbn [first_or_none new_product_row Row.id]; [lia|].
      assert (H : In r0 (r0 :: rest)) by (left; reflexivity).
      rewrite <- Hf in H. apply filter_In in H as [Hin _].
      destruct Hp as [_ Hb]. rewrite Forall_forall in Hb.
      specialize (Hb r0 Hin). lia.
    + apply (ledger_ok_products_seq _ _ (products_seq w)); [|exact Hl].
      cbn [new_product_row Row.id]. lia.
Qed.

Lemma table_invariant_update_product (w : World) (product_id : Z)
    (kwargs : list (string * pyval)) :
  table_invariant w ->
  table_invariant (run (update_product product_id kwargs) w).
Proof.
  intros [Hp Hl]. unfold run. rewrite update_product_run.
  destruct (collect_updates kwargs) as [|u us]; [split; assumption|].
  split; cbn [snd products transactions products_seq transactions_seq];
    [|exact Hl].
  apply products_ok_map; [|exact Hp].
  intros r. apply set_column_preserves_id_fun.
Qed.

Lemma table_invariant_delete_product (w : World) (product_id : Z) :
  table_invariant w -> table_invariant (run (delete_product product_id) w).
Proof.
  intros [Hp Hl].
  cbv [run delete_product try_except bind delete_products_where_id ret
       with_products snd].
  split; cbn [products transactions products_seq transactions_seq];
    [|exact Hl].
  apply products_ok_filter, Hp.
Qed.

Lemma table_invariant_add_stock (w : World) (product_id quantity : Z)
    (price : float) (notes : string) :
  table_invariant w ->
  table_invariant (run (add_stock product_id quantity price notes) w).
Proof.
  intros Hw. unfold run.
  destruct (filter (fun r => Row.id r =? product_id) (products w))
    as [|row rest] eqn:Hf.
  - rewrite (proj1 (stock_missing _ _ _ _ _ Hf)). exact Hw.
  - rewrite (add_stock_found _ _ _ _ _ _ _ Hf). cbn [snd].
    apply table_invariant_stock_write; [exact Hw|].
    apply (found_row_bounded _ _ _ _ Hw Hf).
Qed.

Lemma table_invariant_remove_stock (w : World) (product_id quantity : Z)
    (price : float) (notes : string) :
  table_invariant w ->
  table_invariant (run (remove_stock product_id quantity price notes) w).
Proof.
  intros Hw. unfold run.
  destruct (filter (fun r => Row.id r =? product_id) (products w))
    as [|row rest] eqn:Hf.
  - rewrite (proj2 (stock_missing _ _ _ _ _ Hf)). exact Hw.
  - destruct (Z.lt_ge_cases (Row.quantity row) quantity) as [Hlt|Hge].
    + rewrite (remove_stock_refused _ _ _ _ _ _ _ Hf Hlt). exact Hw.
    + rewrite (remove_stock_found _ _ _ _ _ _ _ Hf Hge). cbn [snd].
      apply table_invariant_stock_write; [exact Hw|].
      apply (found_row_bounded _ _ _ _ Hw Hf).
Qed.

(** X6: the primary keys stay sound.  When in both tables the ids increase
    strictly along the scan (hence are unique), none exceeds its
    [AUTOINCREMENT] counter and every ledger entry is booked on an id the
    [products] table has handed out, the same holds after [add_product],
    [update_product], [delete_product], [add_stock] and [remove_stock],
    whatever their arguments. *)
Theorem X6_table_invariant_kept (w : World) :
  table_invariant w ->
  (forall product, table_invariant (run (add_product product) w)) /\
  (forall product_id kwargs,
     table_invariant (run (update_product product_id kwargs) w)) /\
  (forall product_id,
     table_invariant (run (delete_product product_id) w)) /\
  (forall product_id quantity price notes,
     table_invariant (run (add_stock product_id quantity price notes) w)) /\
  (forall product_id quantity price notes,
     table_invariant (run (remove_stock product_id quantity price notes) w)).
Proof.
  intros Hw. split; [|split; [|split; [|split]]]; intros.
  - apply table_invariant_add_product, Hw.
  - apply table_invariant_update_product, Hw.
  - apply table_invariant_delete_product, Hw.
  - apply table_invariant_add_stock, Hw.
  - apply table_invariant_remove_stock, Hw.
Qed.

Lemma table_invariant_empty_world : table_invariant empty_world.
Proof.
  split; [split | split; [|split]]; constructor.
Qed.

Lemma X6_table_invariant_kept_witness :
  (forall product, table_invariant (run (add_product product) empty_world)) /\
  (forall product_id kwargs,
     table_invariant (run (update_product product_id kwargs) empty_world)) /\
  (forall product_id,
     table_invariant (run (delete_product product_id) empty_world)) /\
  (forall product_id quantity price notes,
     table_invariant
       (run (add_stock product_id quantity price notes) empty_world)) /\
  (forall product_id quantity price notes,
     table_invariant
       (run (remove_stock product_id quantity price notes) empty_world)).
Proof.
  exact (X6_table_invariant_kept empty_world table_invariant_empty_world).
Defined.

(** ** The ledger and the stock operations *)






(** ** Quantities and the ledger agree *)












(** ** What [update_product] leaves alone *)

Lemma is_valid_field_In (field : string) :
  is_valid_field field = true <-> In field valid_fields.
Proof.
  unfold is_valid_field. rewrite existsb_exists. split.
  - intros (f & Hin & He). apply String.eqb_eq in He. subst. exact Hin.
  - intros Hin. exists field. split; [exact Hin | apply String.eqb_refl].
Qed.

Lemma collect_updates_In (kwargs : list (string * pyval)) (field : string)
    (v : pyval) :
  In (field, v) (collect_updates kwargs) <->
  In (field, v) kwargs /\ In field valid_fields.
Proof.
  induction kwargs as [|[f x] rest IH]; cbn [collect_updates].
  - cbn [In]. tauto.
  - destruct (is_valid_field f) eqn:Ev.
    + apply is_valid_field_In in Ev. cbn [In]. rewrite IH. split.
      * intros [E|[H1 H2]]; [|tauto].
        injection E as <- <-. tauto.
      * intros [[E|H1] H2]; [left; exact E | tauto].
    + rewrite IH. cbn [In]. split; [tauto|].
      intros [[E|H1] H2]; [|tauto].
      injection E as <- <-. apply is_valid_field_In in H2. congruence.
Qed.

(** X11: keyword arguments without a valid field make [update_product] a
    no-op that answers [False]: nothing is written, the clock is not read
    and nothing is printed.  So [id], [created_date] and [last_updated]
    cannot be set by a caller, and an empty update is refused. *)
Theorem X11_update_without_valid_field (w : World) (product_id : Z)
    (kwargs : list (string * pyval)) :
  (forall field v, In (field, v) kwargs -> ~ In field valid_fields) ->
  update_product product_id kwargs w = (Return false, w).
Proof.
  intros H. rewrite update_product_run.
  destruct (collect_updates kwargs) as [|[f x] us] eqn:E; [reflexivity|].
  exfalso. assert (Hin : In (f, x) (collect_updates kwargs))
    by (rewrite E; left; reflexivity).
  apply collect_updates_In in Hin as [Hin Hv]. exact (H f x Hin Hv).
Qed.

Lemma X11_update_without_valid_field_witness :
  update_product 1 [("id", VInt 7); ("created_date", VStr "1999")] world_laptop
  = (Return false, world_laptop).
Proof.
  apply (X11_update_without_valid_field world_laptop 1
           [("id", VInt 7); ("created_date", VStr "1999")]).
  intros field v [[= <- <-]|[[= <- <-]|[]]] Hin; simpl in Hin;
    repeat (destruct Hin as [Hin|Hin]; [discriminate|]); exact Hin.
Defined.

Lemma set_column_created_date (field : string) (v : pyval) (r : Row.t) :
  Row.created_date (set_column field v r) = Row.created_date r.
Proof.
  destruct v; simpl;
    repeat match goal with |- context [String.eqb ?a ?b] =>
             destruct (String.eqb a b) end; reflexivity.
Qed.

Lemma set_columns_created_date (updates : list (string * pyval)) (r : Row.t) :
  Row.created_date (set_columns updates r) = Row.created_date r.
Proof.
  unfold set_columns. revert r.
  induction updates as [|u us IH]; simpl; intros r; [reflexivity|].
  rewrite IH. apply set_column_created_date.
Qed.

Lemma set_columns_app (us vs : list (string * pyval)) (r : Row.t) :
  set_columns (us ++ vs) r = set_columns vs (set_columns us r).
Proof. unfold set_columns. apply fold_left_app. Qed.

(** X12: [update_product] keeps the shape of the table.  Whatever the
    arguments, the rows keep their ids and creation dates in the same
    order and every row with another id stays as it is; and when it returns
    [True], each row with the given id carries as [last_updated] the clock
    reading taken by the call. *)
Theorem X12_update_product_frame (w : World) (product_id : Z)
    (kwargs : list (string * pyval)) :
  map Row.id (products (run (update_product product_id kwargs) w))
    = map Row.id (products w) /\
  map Row.created_date (products (run (update_product product_id kwargs) w))
    = map Row.created_date (products w) /\
  filter (fun r => negb (Row.id r =? product_id))
         (products (run (update_product product_id kwargs) w))
    = filter (fun r => negb (Row.id r =? product_id)) (products w) /\
  (result (update_product product_id kwargs) w = Return true ->
   forall r, In r (products (run (update_product product_id kwargs) w)) ->
             Row.id r = product_id ->
             Row.last_updated r = clock w (ticks w)).
Proof.
  unfold result, run. rewrite update_product_run.
  destruct (collect_updates kwargs) as [|u us].
  { cbn [fst snd]. repeat split. discriminate. }
  set (updates := (u :: us) ++ [("last_updated", VStr (clock w (ticks w)))]).
  cbn [fst snd products]. split; [|split; [|split]].
  - rewrite map_map. apply map_ext. intros r.
    apply set_column_preserves_id_fun.
  - rewrite map_map. apply map_ext. intros r.
    destruct (Row.id r =? product_id);
      [apply set_columns_created_date | reflexivity].
  - induction (products w) as [|r ps IH]; [reflexivity|].
    cbn [map filter]. rewrite set_column_preserves_id_fun.
    destruct (Row.id r =? product_id) eqn:E; cbn [negb]; [exact IH|].
    rewrite IH. reflexivity.
  - intros _ r' Hr' Hid. apply in_map_iff in Hr' as (r & <- & Hr).
    rewrite set_column_preserves_id_fun in Hid.
    apply Z.eqb_eq in Hid. rewrite Hid.
    unfold updates. rewrite set_columns_app. reflexivity.
Qed.

(** ** Listings come sorted *)

Lemma ascii_compare_trans (a b c : ascii) (o : comparison) :
  Ascii.compare a b = o -> Ascii.compare b c = o -> Ascii.compare a c = o.
Proof.
  unfold Ascii.compare. destruct o; intros H1 H2.
  - apply N.compare_eq_iff in H1, H2. apply N.compare_eq_iff. congruence.
  - apply N.compare_lt_iff in H1, H2. apply N.compare_lt_iff.
    eapply N.lt_trans; eassumption.
  - apply N.compare_gt_iff in H1, H2. apply N.compare_gt_iff.
    eapply N.lt_trans; eassumption.
Qed.

Lemma string_compare_not_gt_trans (a : string) :
  forall b c, String.compare a b <> Gt -> String.compare b c <> Gt ->
              String.compare a c <> Gt.
Proof.
  induction a as [|x a IH]; intros [|y b] [|z c]; simpl; try congruence.
  destruct (Ascii.compare x y) eqn:Exy; try congruence;
    destruct (Ascii.compare y z) eqn:Eyz; try congruence; intros H1 H2.
  - rewrite (ascii_compare_trans _ _ _ _ Exy Eyz). eauto.
  - apply Ascii.compare_eq_iff in Exy. subst. rewrite Eyz. congruence.
  - apply Ascii.compare_eq_iff in Eyz. subst. rewrite Exy. congruence.
  - rewrite (ascii_compare_trans _ _ _ _ Exy Eyz). congruence.
Qed.

Lemma string_leb_trans (a b c : string) :
  String.leb a b = true -> String.leb b c = true -> String.leb a c = true.
Proof.
  unfold String.leb. intros H1 H2.
  pose proof (string_compare_not_gt_trans a b c) as H.
  destruct (String.compare a b); try discriminate;
    destruct (String.compare b c); try discriminate;
    destruct (String.compare a c); try reflexivity;
    exfalso; apply H; congruence.
Qed.

Section OrderBySorted.
Context {A : Type} (le : A -> A -> bool).
Hypothesis le_total : forall a b, le a b = true \/ le b a = true.
Hypothesis le_trans : forall a b c,
  le a b = true -> le b c = true -> le a c = true.

Lemma insert_sorted_perm (x : A) (l : list A) :
  Permutation (insert_sorted le x l) (x :: l).
Proof.
  induction l as [|y l IH]; simpl; [reflexivity|].
  destruct (le x y); [reflexivity|].
  rewrite IH. apply perm_swap.
Qed.

Lemma order_by_perm (l : list A) : Permutation (order_by le l) l.
Proof.
  induction l as [|x l IH]; simpl; [reflexivity|].
  rewrite insert_sorted_perm. constructor. exact IH.
Qed.

Lemma insert_sorted_sorted (x : A) (l : list A) :
  StronglySorted (fun a b => le a b = true) l ->
  StronglySorted (fun a b => le a b = true) (insert_sorted le x l).
Proof.
  induction 1 as [|y l Hs IH Hy]; simpl.
  - constructor; constructor.
  - destruct (le x y) eqn:E.
    + constructor; [constructor; assumption|].
      constructor; [exact E|].
      rewrite Forall_forall in *. intros z Hz. eauto.
    + constructor; [exact IH|].
      rewrite Forall_forall in *. intros z Hz.
      apply (Permutation_in _ (insert_sorted_perm x l)) in Hz.
      destruct Hz as [<-|Hz]; [|auto].
      destruct (le_total x y); congruence.
Qed.

Lemma order_by_sorted (l : list A) :
  StronglySorted (fun a b => le a b = true) (order_by le l).
Proof.
  induction l as [|x l IH]; simpl; [constructor|].
  apply insert_sorted_sorted, IH.
Qed.
End OrderBySorted.

(** X13: [get_all_products] returns every stored product exactly once,
    ordered by name: each row's name is at most (bytewise) the name of
    every row after it.  The call changes nothing. *)
Theorem X13_get_all_products_sorted (w : World) :
  exists ps,
    get_all_products w = (Return ps, w) /\
    Permutation ps (products w) /\
    StronglySorted
      (fun a b => String.leb (Row.name a) (Row.name b) = true) ps.
Proof.
  eexists. split; [reflexivity|]. split.
  - apply order_by_perm.
  - apply (order_by_sorted
             (fun a b => String.leb (Row.name a) (Row.name b))).
    + intros a b. apply String.leb_total.
    + intros a b c. apply string_leb_trans.
Qed.





(** ** More on the report *)

(** The report, spelled out, for tables whose quantities are 64-bit. *)
Lemma report_run (w : World) :
  (forall p, In p (products w) -> - 2 ^ 63 <= Row.quantity p < 2 ^ 63) ->
  exists ps total d,
    get_all_products w = (Return ps, w) /\
    py_sum (map stock_value ps) = Return total /\
    categories_loop [] ps = Return d /\
    generate_inventory_report w
    = (Return (mk_report (Z.of_nat (List.length ps)) (py_round2 total)
                 (Z.of_nat (List.length
                    (filter (fun r => Row.quantity r <=? Row.min_stock r)
                            (products w))))
                 d
                 (filter (fun r => Row.quantity r <=? Row.min_stock r)
                         (products w))),
       w).
Proof.
  intros Hall.
  set (ps := order_by (fun a b => String.leb (Row.name a) (Row.name b))
                      (products w)).
  assert (Hps : forall p, In p ps ->
                  exists x, stock_value p = Return (PFloat x)).
  { intros p Hp. apply stock_value_returns, Hall.
    apply order_by_In in Hp. exact Hp. }
  assert (Hitems : forall o, In o (map stock_value ps) ->
                     exists x, o = Return (PFloat x)).
  { intros o Ho. apply in_map_iff in Ho as (p & <- & Hp). auto. }
  destruct (py_sum_from_returns _ (PInt 0) eq_refl Hitems) as [total Esum].
  assert (Hempty : addable_dict []) by (intros k e; discriminate).
  destruct (categories_loop_returns ps [] Hempty Hps) as [d Eloop].
  exists ps, total, d. split; [reflexivity|]. split; [exact Esum|].
  split; [exact Eloop|].
  cbv [generate_inventory_report bind get_all_products
       select_products_order_by_name get_low_stock_products
       select_low_stock lift ret].
  fold ps. unfold py_sum in Esum. unfold py_sum. rewrite Esum, Eloop.
  reflexivity.
Qed.

Lemma counted_set (k : string) (e : category_entry) (d : categories_dict) :
  counted (dict_set k e d)
  = counted d + count e
    - match dict_get k d with Some e0 => count e0 | None => 0 end.
Proof.
  unfold counted. induction d as [|[k' e'] d IH]; simpl.
  - lia.
  - destruct (String.eqb k' k); simpl; lia.
Qed.

Lemma categories_step_counted (d d1 : categories_dict) (p : Row.t) :
  categories_step d p = Return d1 -> counted d1 = counted d + 1.
Proof.
  unfold categories_step. set (k := category_key p).
  destruct (dict_get k d) as [e|] eqn:Eg.
  - rewrite Eg. cbn [count value].
    destruct (stock_value p) as [v|]; [|discriminate]. cbn [and_then].
    destruct (py_add (value e) v) as [s|]; [|discriminate]. cbn [and_then].
    intros [= <-]. rewrite counted_set, Eg. cbn [count]. lia.
  - rewrite dict_get_set_same. cbn [count value].
    destruct (stock_value p) as [v|]; [|discriminate]. cbn [and_then].
    destruct (py_add (PInt 0) v) as [s|]; [|discriminate]. cbn [and_then].
    intros [= <-]. rewrite !counted_set, dict_get_set_same, Eg.
    cbn [count]. lia.
Qed.

Lemma categories_loop_counted (ps : list Row.t) :
  forall d d', categories_loop d ps = Return d' ->
               counted d' = counted d + Z.of_nat (List.length ps).
Proof.
  induction ps as [|p ps IH]; intros d d' H.
  - injection H as <-. simpl. lia.
  - cbn [categories_loop] in H.
    destruct (categories_step d p) as [d1|] eqn:E; [|discriminate].
    cbn [and_then] in H. rewrite (IH _ _ H), (categories_step_counted _ _ _ E).
    cbn [List.length]. lia.
Qed.

Lemma quantities_64bit_check (ps : list Row.t) :
  forallb (fun p => (- 2 ^ 63 <=? Row.quantity p)
                    && (Row.quantity p <? 2 ^ 63))%bool ps = true ->
  forall p, In p ps -> - 2 ^ 63 <= Row.quantity p < 2 ^ 63.
Proof.
  intros H p Hp. rewrite forallb_forall in H. specialize (H p Hp).
  apply andb_true_iff in H as [H1 H2]. lia.
Qed.

(** X16: the figures of a report add up.  With 64-bit quantities the
    report returns and changes nothing; [total_products] is the number of
    stored products, the counts of the categories sum to it (every product
    is counted in exactly one category), and [low_stock_count] is the
    length of [low_stock_products]. *)
Theorem X16_report_counts_add_up (w : World) :
  (forall p, In p (products w) -> - 2 ^ 63 <= Row.quantity p < 2 ^ 63) ->
  exists r,
    generate_inventory_report w = (Return r, w) /\
    total_products r = Z.of_nat (List.length (products w)) /\
    counted (categories r) = total_products r /\
    low_stock_count r = Z.of_nat (List.length (low_stock_products r)).
Proof.
  intros Hall.
  destruct (report_run w Hall) as (ps & total & d & Hps & _ & Hloop & Hrun).
  eexists. split; [exact Hrun|].
  cbn [total_products categories low_stock_count low_stock_products].
  assert (Hlen : List.length ps = List.length (products w)).
  { injection Hps as <-. apply Permutation_length, order_by_perm. }
  split; [rewrite Hlen; reflexivity|]. split; [|reflexivity].
  rewrite (categories_loop_counted _ _ _ Hloop). reflexivity.
Qed.

Lemma X16_report_counts_add_up_witness :
  exists r,
    generate_inventory_report world_laptop_notebook
      = (Return r, world_laptop_notebook) /\
    total_products r = Z.of_nat (List.length (products world_laptop_notebook)) /\
    counted (categories r) = total_products r /\
    low_stock_count r = Z.of_nat (List.length (low_stock_products r)).
Proof.
  apply (X16_report_counts_add_up world_laptop_notebook).
  apply quantities_64bit_check. vm_compute. reflexivity.
Defined.

Lemma category_key_uncategorized (p : Row.t) :
  String.eqb (category_key p) "Uncategorized"
  = (String.eqb (Row.category p) "" || String.eqb (Row.category p) "Uncategorized")%bool.
Proof.
  unfold category_key.
  destruct (String.eqb (Row.category p) "") eqn:E; reflexivity.
Qed.

Lemma category_key_nonempty (p : Row.t) :
  String.eqb (category_key p) "" = false.
Proof.
  unfold category_key.
  destruct (String.eqb (Row.category p) "") eqn:E; [reflexivity | exact E].
Qed.

Lemma filter_perm {A} (f : A -> bool) (l l' : list A) :
  Permutation l l' -> Permutation (filter f l) (filter f l').
Proof.
  induction 1 as [|x l l' H IH|x y l|l l' l'' H1 IH1 H2 IH2]; simpl.
  - constructor.
  - destruct (f x); [constructor|]; exact IH.
  - destruct (f x), (f y); try reflexivity. apply perm_swap.
  - etransitivity; eassumption.
Qed.

(** X17: products without a category are reported under "Uncategorized",
    together with the products whose category is literally
    "Uncategorized": the count of that entry is the number of both, and
    there is no entry when there is no such product.  No report has an
    entry under the empty name. *)
Theorem X17_uncategorized_bucket (w : World) :
  (forall p, In p (products w) -> - 2 ^ 63 <= Row.quantity p < 2 ^ 63) ->
  exists r,
    generate_inventory_report w = (Return r, w) /\
    dict_get "" (categories r) = None /\
    match filter (fun p => (String.eqb (Row.category p) ""
                            || String.eqb (Row.category p) "Uncategorized")%bool)
                 (products w) with
    | [] => dict_get "Uncategorized" (categories r) = None
    | b => exists e, dict_get "Uncategorized" (categories r) = Some e /\
                     count e = Z.of_nat (List.length b)
    end.
Proof.
  intros Hall.
  destruct (report_run w Hall) as (ps & total & d & Hps & _ & Hloop & Hrun).
  eexists. split; [exact Hrun|]. cbn [categories].
  split.
  - pose proof (categories_loop_get ps [] d Hloop "") as H.
    unfold bucket in H. rewrite filter_all_false in H; [exact H|].
    intros p _. apply category_key_nonempty.
  - pose proof (categories_loop_get ps [] d Hloop "Uncategorized") as H.
    unfold bucket in H.
    rewrite (filter_ext _ _ category_key_uncategorized) in H.
    set (f := fun p => (String.eqb (Row.category p) ""
                        || String.eqb (Row.category p) "Uncategorized")%bool)
      in *.
    assert (Hperm : Permutation (filter f ps) (filter f (products w))).
    { injection Hps as <-. apply filter_perm, order_by_perm. }
    destruct (filter f (products w)) as [|q b'] eqn:Eb.
    + apply Permutation_sym, Permutation_nil in Hperm. rewrite Hperm in H.
      exact H.
    + destruct (filter f ps) as [|q0 b0] eqn:Eb0.
      * apply Permutation_nil in Hperm. discriminate.
      * destruct H as (e & He & Hg). exists e. split; [exact Hg|].
        destruct (entry_loop_sum _ _ _ He) as [_ Hn].
        unfold entry_or_new in Hn. cbn [dict_get count] in Hn.
        rewrite Hn, (Permutation_length Hperm). reflexivity.
Qed.

Lemma X17_uncategorized_bucket_witness :
  exists r,
    generate_inventory_report world_negative = (Return r, world_negative) /\
    dict_get "" (categories r) = None /\
    exists e, dict_get "Uncategorized" (categories r) = Some e /\
              count e = 1.
Proof.
  destruct (X17_uncategorized_bucket world_negative) as (r & Hr & He & Hu).
  - apply quantities_64bit_check. vm_compute. reflexivity.
  - exists r. split; [exact Hr|]. split; [exact He | exact Hu].
Defined.

(** X18: with no product stored the report is all zeros: no products, the
    integer 0 as inventory value, no category and no low-stock product,
    whatever the ledger holds. *)
Theorem X18_report_of_empty_table (w : World) :
  products w = [] ->
  generate_inventory_report w = (Return (mk_report 0 (PInt 0) 0 [] []), w).
Proof.
  intros H.
  cbv [generate_inventory_report bind get_all_products
       select_products_order_by_name get_low_stock_products
       select_low_stock lift ret].
  rewrite H. reflexivity.
Qed.

Lemma X18_report_of_empty_table_witness :
  generate_inventory_report (run (delete_product 1) world_laptop)
  = (Return (mk_report 0 (PInt 0) 0 [] []), run (delete_product 1) world_laptop).
Proof.
  apply (X18_report_of_empty_table (run (delete_product 1) world_laptop)).
  reflexivity.
Defined.

(** ** Operations seen through the history and the low-stock list *)




Lemma stock_row_min_stock (n : Z) (stamp : string) (r : Row.t) :
  Row.min_stock (stock_row n stamp r) = Row.min_stock r /\
  Row.quantity (stock_row n stamp r) = n.
Proof. split; reflexivity. Qed.



(** ** [search_products] *)

Example search_is_case_insensitive :
  match result (search_products "corp") world_laptop_notebook with
  | Return rows => map Row.name rows
  | Raise _ => []
  end = ["Laptop"; "Notebook"].
Proof. reflexivity. Qed.

Example search_by_category :
  match result (search_products "STATION") world_laptop_notebook with
  | Return rows => map Row.name rows
  | Raise _ => []
  end = ["Notebook"].
Proof. reflexivity. Qed.

Example search_underscore_is_a_wildcard :
  match result (search_products "L_p") world_laptop_notebook with
  | Return rows => map Row.name rows
  | Raise _ => []
  end = ["Laptop"].
Proof. reflexivity. Qed.

Lemma like_percent_any (pattern text : string) :
  like (String "%" pattern) text
  = (like pattern text
     || match text with
        | EmptyString => false
        | String _ text' => like (String "%" pattern) text'
        end)%bool.
Proof. destruct text; reflexivity. Qed.

Lemma like_only_percent (pattern : string) :
  only_percent pattern = true -> pattern <> EmptyString ->
  forall text, like pattern text = true.
Proof.
  induction pattern as [|c pattern IH]; [congruence|].
  cbn [only_percent]. intros H _. apply andb_true_iff in H as [Hc Hrest].
  apply Ascii.eqb_eq in Hc. subst c.
  destruct pattern as [|c' pattern'].
  - induction text as [|x text IHt]; [reflexivity|].
    rewrite like_percent_any, IHt. apply orb_true_r.
  - intros text. rewrite like_percent_any, IH by (auto; discriminate).
    reflexivity.
Qed.

Lemma only_percent_app (a b : string) :
  only_percent (a ++ b) = (only_percent a && only_percent b)%bool.
Proof.
  induction a as [|c a IH]; simpl; [reflexivity|].
  rewrite IH. apply andb_assoc.
Qed.

(** X22: the wildcards of [LIKE] pass through [search_products].  A search
    term made of nothing but [%] characters, the empty term among them,
    returns every stored product, in table order, and changes nothing. *)
Theorem X22_search_percent_returns_all (w : World) (search_term : string) :
  only_percent search_term = true ->
  search_products search_term w = (Return (products w), w).
Proof.
  intros H. unfold search_products, select_products_like.
  rewrite filter_all_true; [reflexivity|].
  intros r _. rewrite like_only_percent; [reflexivity | | discriminate].
  change (only_percent ("%" ++ (search_term ++ "%")) = true).
  rewrite !only_percent_app, H. reflexivity.
Qed.

Lemma X22_search_percent_returns_all_witness :
  search_products "" world_laptop_notebook
    = (Return (products world_laptop_notebook), world_laptop_notebook) /\
  search_products "%" world_laptop_notebook
    = (Return (products world_laptop_notebook), world_laptop_notebook).
Proof.
  split.
  - apply (X22_search_percent_returns_all world_laptop_notebook "").
    reflexivity.
  - apply (X22_search_percent_returns_all world_laptop_notebook "%").
    reflexivity.
Defined.

Lemma string_app_assoc (a b c : string) :
  ((a ++ b) ++ c)%string = (a ++ (b ++ c))%string.
Proof. induction a as [|x a IH]; simpl; [reflexivity | rewrite IH; reflexivity]. Qed.

(** A wildcard-free term followed by [%]: the text starts with the term. *)
Lemma like_prefix (term : string) :
  wildcard_free term = true ->
  forall text,
    like (term ++ "%") text = true <->
    exists found after,
      text = (found ++ after)%string /\ same_but_case term found = true.
Proof.
  induction term as [|c term IH]; intros Hfree text.
  - split.
    + intros _. exists EmptyString, text. split; reflexivity.
    + intros _. apply (like_only_percent "%"); [reflexivity | discriminate].
  - cbn [wildcard_free] in Hfree.
    apply andb_true_iff in Hfree as [Hc Hfree].
    apply andb_true_iff in Hc as [Hp Hu].
    apply negb_true_iff in Hp, Hu.
    cbn [String.append like]. rewrite Hp.
    destruct text as [|x text].
    + split; [discriminate|].
      intros (found & after & E & Hs). destruct found; discriminate.
    + rewrite Hu. cbn [orb]. rewrite andb_true_iff, (IH Hfree). split.
      * intros (Hx & found & after & -> & Hs).
        exists (String x found), after. split; [reflexivity|].
        cbn [same_but_case]. rewrite Hx, Hs. reflexivity.
      * intros (found & after & E & Hs).
        destruct found as [|y found]; [discriminate|].
        cbn [same_but_case] in Hs. apply andb_true_iff in Hs as [Hy Hs].
        cbn [String.append] in E. injection E as -> ->.
        split; [exact Hy|]. eauto.
Qed.

(** [%] in front: the rest of the pattern matches from somewhere on. *)
Lemma like_after_percent (pattern : string) (text : string) :
  like (String "%" pattern) text = true <->
  exists before rest,
    text = (before ++ rest)%string /\ like pattern rest = true.
Proof.
  induction text as [|x text IH]; rewrite like_percent_any.
  - rewrite orb_false_r. split.
    + intros H. exists EmptyString, EmptyString. split; [reflexivity | exact H].
    + intros (before & rest & E & H).
      destruct before; [|discriminate]. cbn [String.append] in E.
      subst rest. exact H.
  - rewrite orb_true_iff, IH. split.
    + intros [H|(before & rest & -> & H)].
      * exists EmptyString, (String x text). split; [reflexivity | exact H].
      * exists (String x before), rest. split; [reflexivity | exact H].
    + intros (before & rest & E & H). destruct before as [|y before].
      * cbn [String.append] in E. subst rest. left. exact H.
      * cbn [String.append] in E. injection E as -> ->. right. eauto.
Qed.

Lemma like_contains (term text : string) :
  wildcard_free term = true ->
  like ("%" ++ term ++ "%") text = true <-> occurs_in term text.
Proof.
  intros Hfree.
  change ("%" ++ term ++ "%")%string with (String "%" (term ++ "%")).
  rewrite like_after_percent. unfold occurs_in. split.
  - intros (before & rest & -> & H).
    apply (like_prefix term Hfree) in H as (found & after & -> & Hs).
    exists before, found, after. split; [reflexivity | exact Hs].
  - intros (before & found & after & -> & Hs).
    exists before, (found ++ after)%string. split; [reflexivity|].
    apply (like_prefix term Hfree). eauto.
Qed.

(** X23: for a search term without [%] and [_], [search_products] returns
    exactly the stored products in whose name, category or supplier the
    term occurs, the case of ASCII letters aside; the call changes
    nothing. *)
Theorem X23_search_is_substring_match (w : World) (search_term : string) :
  wildcard_free search_term = true ->
  exists rows,
    search_products search_term w = (Return rows, w) /\
    forall r,
      In r rows <->
      In r (products w) /\
      (occurs_in search_term (Row.name r) \/
       occurs_in search_term (Row.category r) \/
       occurs_in search_term (Row.supplier r)).
Proof.
  intros Hfree. eexists. split; [reflexivity|].
  intros r. rewrite filter_In, !orb_true_iff.
  rewrite !(like_contains search_term _ Hfree). tauto.
Qed.

Lemma X23_search_is_substring_match_witness :
  exists rows,
    search_products "corp" world_laptop_notebook
      = (Return rows, world_laptop_notebook) /\
    forall r,
      In r rows <->
      In r (products world_laptop_notebook) /\
      (occurs_in "corp" (Row.name r) \/
       occurs_in "corp" (Row.category r) \/
       occurs_in "corp" (Row.supplier r)).
Proof.
  apply (X23_search_is_substring_match world_laptop_notebook "corp").
  reflexivity.
Defined.

(** ** [add_sample_data] *)

Lemma add_each_run (ps : list Product.t) :
  forall w,
    fst (add_each ps w) = Return tt /\
    map Row.name (products (run (add_each ps) w))
      = map Row.name (products w) ++ map Product.name ps /\
    map Row.quantity (products (run (add_each ps) w))
      = map Row.quantity (products w) ++ map Product.quantity ps /\
    List.length (transactions (run (add_each ps) w))
      = (List.length (transactions w) + List.length ps)%nat.
Proof.
  induction ps as [|p ps IH]; intros w.
  - cbn [add_each map List.length]. unfold run, ret. cbn [fst snd].
    rewrite !app_nil_r, Nat.add_0_r. repeat split.
  - cbn [add_each]. unfold run, bind. rewrite add_product_run.
    set (w1 := mk_world _ _ _ _ _ _ _).
    destruct (IH w1) as (H1 & H2 & H3 & H4). unfold run in *.
    split; [exact H1|]. rewrite H2, H3, H4. unfold w1.
    cbn [products transactions map List.length new_product_row
         Row.name Row.quantity].
    rewrite !map_app, !length_app. cbn [map List.length].
    rewrite <- !app_assoc. cbn [app]. repeat split. lia.
Qed.

Lemma sample_products_run (w : World) :
  exists ps w',
    sample_products w = (Return ps, w') /\
    map Product.name ps
      = ["Laptop"; "Office Chair"; "Coffee Beans"; "Notebook"] /\
    map Product.quantity ps = [15; 8; 50; 2] /\
    products w' = products w /\ transactions w' = transactions w.
Proof.
  unfold sample_products. destruct w as [ps ts pseq tseq clk tk out].
  do 2 eexists. split.
  - cbv [bind Product_init now_isoformat ret products transactions
         products_seq transactions_seq clock ticks stdout].
    reflexivity.
  - repeat split.
Qed.

(** X24: [add_sample_data] makes no check of what is stored.  In every
    world it adds its four products, a laptop, an office chair, coffee
    beans and a notebook in stock 15, 8, 50 and 2 times, and four ledger
    entries; run a second time it stores all four names once more. *)
Theorem X24_add_sample_data_adds_four (w : World) :
  result add_sample_data w = Return tt /\
  map Row.name (products (run add_sample_data w))
    = map Row.name (products w)
      ++ ["Laptop"; "Office Chair"; "Coffee Beans"; "Notebook"] /\
  map Row.quantity (products (run add_sample_data w))
    = map Row.quantity (products w) ++ [15; 8; 50; 2] /\
  List.length (transactions (run add_sample_data w))
    = (List.length (transactions w) + 4)%nat /\
  map Row.name (products (run add_sample_data (run add_sample_data w)))
    = map Row.name (products w)
      ++ ["Laptop"; "Office Chair"; "Coffee Beans"; "Notebook"]
      ++ ["Laptop"; "Office Chair"; "Coffee Beans"; "Notebook"].
Proof.
  assert (Hone : forall w0,
    result add_sample_data w0 = Return tt /\
    map Row.name (products (run add_sample_data w0))
      = map Row.name (products w0)
        ++ ["Laptop"; "Office Chair"; "Coffee Beans"; "Notebook"] /\
    map Row.quantity (products (run add_sample_data w0))
      = map Row.quantity (products w0) ++ [15; 8; 50; 2] /\
    List.length (transactions (run add_sample_data w0))
      = (List.length (transactions w0) + 4)%nat).
  { intros w0.
    destruct (sample_products_run w0) as (ps & w' & E & Hn & Hq & Hp & Ht).
    unfold result, run, add_sample_data, bind. rewrite E.
    destruct (add_each_run ps w') as (H1 & H2 & H3 & H4). unfold run in *.
    split; [exact H1|].
    rewrite H2, H3, H4, Hn, Hq, Hp, Ht.
    replace (List.length ps) with 4%nat
      by (rewrite <- (length_map Product.name), Hn; reflexivity).
    repeat split. }
  destruct (Hone w) as (H1 & H2 & H3 & H4).
  split; [exact H1|]. split; [exact H2|]. split; [exact H3|].
  split; [exact H4|].
  destruct (Hone (run add_sample_data w)) as (_ & H2' & _).
  rewrite H2', H2, <- app_assoc. reflexivity.
Qed.

(** ** The dialogues of the front end *)

Section DialogueRules.
Context {A B : Type}.

Lemma triple_ret (P : World -> Prop) (a : A) (Q : A -> World -> Prop)
    (E : World -> Prop) :
  (forall w, P w -> Q a w) -> ui_triple P (ui_ret a) Q E.
Proof. intros H t Ht. apply H, Ht. Qed.

Lemma triple_raise (P : World -> Prop) (e : exception)
    (Q : A -> World -> Prop) (E : World -> Prop) :
  (forall w, P w -> E w) -> ui_triple P (@ui_raise A e) Q E.
Proof. intros H t Ht. apply H, Ht. Qed.

Lemma triple_bind (P : World -> Prop) (c : UI A) (Mid : A -> World -> Prop)
    (k : A -> UI B) (Q : B -> World -> Prop) (E : World -> Prop) :
  ui_triple P c Mid E ->
  (forall a, ui_triple (Mid a) (k a) Q E) ->
  ui_triple P (ui_bind c k) Q E.
Proof.
  intros Hc Hk t Ht. unfold ui_bind. specialize (Hc t Ht).
  destruct (c t) as [[a|e] t']; [apply Hk, Hc | exact Hc].
Qed.

Lemma triple_try (P : World -> Prop) (body : UI A)
    (handler : exception -> UI A) (Q : A -> World -> Prop)
    (E' E : World -> Prop) :
  ui_triple P body Q E' ->
  (forall e, ui_triple E' (handler e) Q E) ->
  ui_triple P (ui_try body handler) Q E.
Proof.
  intros Hb Hh t Ht. unfold ui_try. specialize (Hb t Ht).
  destruct (body t) as [[a|e] t']; [exact Hb | apply Hh, Hb].
Qed.

Lemma triple_manager (P : World -> Prop) (c : M A)
    (Q : A -> World -> Prop) (E : World -> Prop) :
  (forall w, P w -> match c w with
                    | (Return a, w') => Q a w'
                    | (Raise _, w') => E w'
                    end) ->
  ui_triple P (manager c) Q E.
Proof.
  intros H t Ht. unfold manager. specialize (H _ Ht).
  destruct (c (world t)) as [[a|e] w']; exact H.
Qed.

Lemma triple_pre (P P' : World -> Prop) (c : UI A)
    (Q : A -> World -> Prop) (E : World -> Prop) :
  (forall w, P w -> P' w) -> ui_triple P' c Q E -> ui_triple P c Q E.
Proof. intros H Hc t Ht. apply Hc, H, Ht. Qed.

Lemma triple_fact (P : World -> Prop) (fact : Prop) (c : UI A)
    (Q : A -> World -> Prop) (E : World -> Prop) :
  (fact -> ui_triple P c Q E) -> ui_triple (fun w => P w /\ fact) c Q E.
Proof. intros H t [Ht Hf]. apply (H Hf), Ht. Qed.
End DialogueRules.

Lemma same_store_print (line : string) (w : World) :
  same_store w (run (print line) w).
Proof. repeat split. Qed.

Lemma triple_print (P : World -> Prop) (line : string)
    (Q : unit -> World -> Prop) (E : World -> Prop) :
  store_only P -> (forall w, P w -> Q tt w) ->
  ui_triple P (ui_print line) Q E.
Proof.
  intros HP HQ. apply triple_manager. intros w Hw. cbn.
  apply HQ. apply (HP w); [apply (same_store_print line) | exact Hw].
Qed.

Lemma triple_input (P : World -> Prop) (prompt : string)
    (E : World -> Prop) :
  store_only P -> (forall w, P w -> E w) ->
  ui_triple P (input prompt) (fun _ => P) E.
Proof.
  intros HP HE t Ht. unfold input.
  assert (H : P (run (print prompt) (world t))).
  { apply (HP (world t)); [apply same_store_print | exact Ht]. }
  destruct (stdin t); cbn [world]; auto.
Qed.

Lemma triple_handler (P : World -> Prop) (invalid : string) (e : exception)
    (Q : unit -> World -> Prop) (E : World -> Prop) :
  store_only P -> (forall w, P w -> Q tt w) ->
  ui_triple P (ui_handler invalid e) Q E.
Proof.
  intros HP HQ. destruct e; apply triple_print; assumption.
Qed.

Section BuiltinRules.
Variable py_int : string -> option Z.
Variable py_float : string -> option float.

Lemma triple_int_of (P : World -> Prop) (s : string) (E : World -> Prop) :
  (forall w, P w -> E w) ->
  ui_triple P (int_of py_int s) (fun _ => P) E.
Proof.
  intros HE. unfold int_of.
  destruct (py_int s); [apply triple_ret | apply triple_raise]; auto.
Qed.

Lemma triple_float_of (P : World -> Prop) (s : string) (E : World -> Prop) :
  (forall w, P w -> E w) ->
  ui_triple P (float_of py_float s) (fun _ => P) E.
Proof.
  intros HE. unfold float_of.
  destruct (py_float s); [apply triple_ret | apply triple_raise]; auto.
Qed.
End BuiltinRules.

Lemma same_store_refl (w : World) : same_store w w.
Proof. repeat split. Qed.

Lemma same_store_trans (w0 w w' : World) :
  same_store w0 w -> same_store w w' -> same_store w0 w'.
Proof.
  intros (H1 & H2 & H3 & H4) (H1' & H2' & H3' & H4').
  repeat split; congruence.
Qed.

Lemma store_only_same_store (w0 : World) : store_only (same_store w0).
Proof. intros w w' H H0. eapply same_store_trans; eassumption. Qed.

(** Steps of a dialogue that keep an assertion on the store. *)
Ltac keep_step :=
  match goal with
  | |- ui_triple ?P (ui_bind _ _) _ _ =>
      eapply (triple_bind P _ (fun _ => P));
      [ first [ apply triple_input | apply triple_int_of
              | apply triple_float_of
              | apply (triple_print P _ (fun _ => P)) ];
        auto
      | intros ?; cbv beta ]
  end.

Lemma product_init_run (name : string) (price : float) (quantity : Z)
    (description category : string) (min_stock : Z) (supplier : string)
    (w : World) :
  exists product w',
    Product_init name price quantity description category min_stock supplier w
    = (Return product, w') /\
    same_store w w' /\ Product.name product = name.
Proof.
  do 2 eexists. split; [reflexivity|]. split; [|reflexivity].
  repeat split.
Qed.

Section AddProductDialogue.
Variable strip : string -> string.
Variable py_int : string -> option Z.
Variable py_float : string -> option float.

Lemma add_product_ui_effect (w0 : World) :
  ui_triple (same_store w0) (add_product_ui strip py_int py_float)
            (fun _ w => same_store w0 w \/ one_product_added w0 w)
            (fun w => same_store w0 w \/ one_product_added w0 w).
Proof.
  set (S0 := same_store w0).
  set (Eff := fun w => same_store w0 w \/ one_product_added w0 w).
  assert (HS : store_only S0) by apply store_only_same_store.
  assert (HEff : store_only Eff).
  { intros w w' Hww' [H|(p & e & Hn & Hf & Hp & Ht)].
    - left. eapply same_store_trans; eassumption.
    - right. destruct Hww' as (H1 & H2 & _). exists p, e.
      repeat split; try assumption; congruence. }
  assert (HSE : forall w, S0 w -> Eff w) by (intros w H; left; exact H).
  unfold add_product_ui.
  eapply triple_bind;
    [apply (triple_print S0 _ (fun _ => S0)); auto | intros u; cbv beta].
  eapply (triple_try _ _ _ _ Eff);
    [| intros e; apply triple_handler; auto].
  eapply triple_bind; [apply triple_input; auto | intros line].
  cbv zeta. destruct (String.eqb_spec (strip line) "") as [E|Hname].
  { apply triple_print; auto. }
  eapply (triple_bind _ _
            (fun existing w =>
               S0 w /\
               existing = first_or_none
                 (filter (fun r => String.eqb (Row.name r) (strip line))
                         (products w0)))).
  { apply triple_manager. intros w Hw. cbn. split; [exact Hw|].
    destruct Hw as (Hp & _). rewrite Hp. reflexivity. }
  intros existing. apply triple_fact. intros ->.
  destruct (first_or_none _) as [r0|] eqn:Efirst.
  { apply triple_print; auto. }
  assert (Hfresh : forall r, In r (products w0) ->
                             Row.name r <> strip line).
  { intros r Hr. apply String.eqb_neq.
    apply (first_or_none_filter_none _ _ Efirst r Hr). }
  do 9 keep_step.
  eapply (triple_bind _ _
            (fun product w => S0 w /\ Product.name product = strip line)).
  { apply triple_manager. intros w Hw.
    match goal with
    | |- context [Product_init ?n ?x ?q ?d ?c ?m ?sup w] =>
        destruct (product_init_run n x q d c m sup w)
          as (p & w' & -> & Hs & Hn)
    end.
    split; [|exact Hn]. eapply same_store_trans; eassumption. }
  intros product. apply triple_fact. intros Hpn.
  eapply (triple_bind _ _ (fun _ w => Eff w)).
  { apply triple_manager. intros w (Hp & Ht & Hps & Hts).
    rewrite add_product_run. right.
    exists product,
      (initial_stock_entry product (initial_stock_owner product w) w).
    cbn [products transactions]. rewrite Hpn.
    split; [exact Hname|]. split; [exact Hfresh|].
    split; [|rewrite Ht; reflexivity].
    rewrite Hp. unfold new_product_row. rewrite Hp, Hps. reflexivity. }
  intros added. destruct added; apply triple_print; auto.
Qed.
End AddProductDialogue.

Lemma NoDup_snoc {A} (l : list A) (x : A) :
  NoDup l -> ~ In x l -> NoDup (l ++ [x]).
Proof.
  induction 1 as [|y l Hy Hl IH]; intros Hx; simpl.
  - constructor; [tauto | constructor].
  - constructor.
    + rewrite in_app_iff. simpl. intros [H|[H|[]]]; [tauto|].
      apply Hx. left. symmetry. exact H.
    + apply IH. intros H. apply Hx. right. exact H.
Qed.

(** X25: whatever is typed and whatever the built-ins make of it,
    [add_product_ui] either leaves both tables as they are or stores
    exactly one product, under a name that is not empty and that no stored
    product has, with one ledger entry.  So the add dialogue keeps the
    product names free of duplicates. *)
Theorem X25_add_product_ui_effect (strip : string -> string)
    (py_int : string -> option Z) (py_float : string -> option float)
    (t : Terminal) :
  (same_store (world t) (world (snd (add_product_ui strip py_int py_float t)))
   \/ one_product_added
        (world t) (world (snd (add_product_ui strip py_int py_float t)))) /\
  (NoDup (map Row.name (products (world t))) ->
   NoDup (map Row.name
            (products
               (world (snd (add_product_ui strip py_int py_float t)))))).
Proof.
  pose proof (add_product_ui_effect strip py_int py_float (world t) t
                (same_store_refl _)) as H.
  assert (Heff :
    same_store (world t)
               (world (snd (add_product_ui strip py_int py_float t)))
    \/ one_product_added
         (world t) (world (snd (add_product_ui strip py_int py_float t)))).
  { destruct (add_product_ui strip py_int py_float t) as [[a|e] t'];
      exact H. }
  split; [exact Heff|]. intros Hnd.
  destruct Heff as [(Hp & _)|(product & entry & _ & Hfresh & Hp & _)];
    rewrite Hp; [exact Hnd|].
  rewrite map_app. cbn [map new_product_row Row.name].
  apply NoDup_snoc; [exact Hnd|].
  intros Hin. apply in_map_iff in Hin as (r & Hr & Hin).
  exact (Hfresh r Hin Hr).
Qed.

(** X26: the add dialogue is where duplicate names are refused.  When the
    first line typed, stripped, is the name of a stored product,
    [add_product_ui] writes "Product already exists!" after its header and
    its one prompt and returns: it takes no further line, and apart from
    the console the world is as it was. *)
Theorem X26_add_product_ui_refuses_duplicate (strip : string -> string)
    (py_int : string -> option Z) (py_float : string -> option float)
    (w : World) (line : string) (rest : list string) (r : Row.t) :
  strip line <> "" ->
  get_product_by_name (strip line) w = (Return (Some r), w) ->
  add_product_ui strip py_int py_float (mk_terminal w (line :: rest))
  = (Done tt,
     mk_terminal
       (run (print "Product already exists!")
            (run (print "Product Name: ")
                 (run (print (nl ++ "--- Add New Product ---")%string) w)))
       rest).
Proof.
  intros Hname Hsome.
  unfold add_product_ui, ui_bind, ui_try, ui_print, input.
  cbn [manager world stdin print fst snd run].
  destruct (String.eqb_spec (strip line) "") as [E|_]; [contradiction|].
  unfold manager at 1. cbn [world stdin].
  change (get_product_by_name (strip line) ?w0)
    with (get_product_by_name (strip line) w0).
  assert (Hget : forall w1, products w1 = products w ->
                   get_product_by_name (strip line) w1 = (Return (Some r), w1)).
  { intros w1 Hp.
    unfold get_product_by_name, bind, select_products_where_name, ret in *.
    cbn [fst snd] in *. rewrite Hp.
    destruct (filter _ (products w)) as [|r' l]; [discriminate|].
    simpl in Hsome. simpl. congruence. }
  rewrite Hget by reflexivity. reflexivity.
Qed.

Lemma X26_add_product_ui_refuses_duplicate_witness :
  add_product_ui (fun s => s) (fun _ => None) (fun _ => None)
                 (mk_terminal world_laptop ["Laptop"; "unread"])
  = (Done tt,
     mk_terminal
       (run (print "Product already exists!")
            (run (print "Product Name: ")
                 (run (print (nl ++ "--- Add New Product ---")%string)
                      world_laptop)))
       ["unread"]).
Proof.
  refine (X26_add_product_ui_refuses_duplicate (fun s => s) (fun _ => None)
            (fun _ => None) world_laptop "Laptop" ["unread"] _ _ eq_refl).
  discriminate.
Defined.

Lemma quantity_kwarg_snoc (updates : list (string * pyval)) (field : string)
    (v : pyval) :
  String.eqb field "quantity" = false ->
  quantity_kwarg updates = None ->
  quantity_kwarg (updates ++ [(field, v)]) = None.
Proof.
  intros Hf Hu. rewrite quantity_kwarg_app. cbn [quantity_kwarg].
  rewrite Hf, Hu. destruct v; reflexivity.
Qed.

Lemma quantity_kwarg_set_if_typed (typed field : string) (v : pyval)
    (updates : list (string * pyval)) :
  String.eqb field "quantity" = false ->
  quantity_kwarg updates = None ->
  quantity_kwarg (set_if_typed typed field v updates) = None.
Proof.
  intros Hf Hu. unfold set_if_typed.
  destruct (String.eqb typed ""); [exact Hu|].
  apply quantity_kwarg_snoc; assumption.
Qed.

Lemma update_product_same_stock (w0 w : World) (product_id : Z)
    (kwargs : list (string * pyval)) :
  quantity_kwarg kwargs = None ->
  same_stock w0 w -> same_stock w0 (run (update_product product_id kwargs) w).
Proof.
  intros Hk (Hid & Hq & Ht). unfold run. rewrite update_product_run.
  pose proof (quantity_kwarg_collect kwargs) as Hc. rewrite Hk in Hc.
  destruct (collect_updates kwargs) as [|u us]; [repeat split; assumption|].
  split; [|split]; cbn [snd products transactions]; [| |exact Ht].
  - rewrite <- Hid, map_map. apply map_ext. intros r.
    apply set_column_preserves_id_fun.
  - rewrite <- Hq, map_map. apply map_ext. intros r.
    destruct (Row.id r =? product_id); [|reflexivity].
    rewrite set_columns_quantity, quantity_kwarg_app.
    change (quantity_kwarg [("last_updated", VStr (clock w (ticks w)))])
      with (@None Z).
    cbv iota. rewrite Hc. reflexivity.
Qed.

Lemma store_only_same_stock (w0 : World) : store_only (same_stock w0).
Proof.
  intros w w' (H1 & H2 & _) (Hid & Hq & Ht).
  repeat split; congruence.
Qed.

Section UpdateProductDialogue.
Variable strip : string -> string.
Variable py_int : string -> option Z.
Variable py_float : string -> option float.
Variable str_int : Z -> string.
Variable str_float : float -> string.

Lemma update_product_ui_effect (w0 : World) :
  ui_triple (same_stock w0)
            (update_product_ui strip py_int py_float str_int str_float)
            (fun _ => same_stock w0) (same_stock w0).
Proof.
  set (P := same_stock w0).
  assert (HP : store_only P) by apply store_only_same_stock.
  unfold update_product_ui.
  eapply (triple_try _ _ _ _ P);
    [| intros e; apply triple_handler; auto].
  do 2 keep_step.
  eapply (triple_bind _ _ (fun _ => P)).
  { apply triple_manager. intros w Hw. exact Hw. }
  intros [product|]; [|apply triple_print; auto].
  cbv zeta. do 6 keep_step.
  eapply (triple_bind _ _
            (fun updates w => P w /\ quantity_kwarg updates = None)).
  { match goal with
    | |- context [if String.eqb ?s "" then _ else _] =>
        destruct (String.eqb s "")
    end.
    - apply triple_ret. intros w Hw. split; [exact Hw|].
      repeat apply quantity_kwarg_set_if_typed; reflexivity.
    - eapply triple_bind; [apply triple_float_of; auto | intros price].
      apply triple_ret. intros w Hw. split; [exact Hw|].
      apply quantity_kwarg_snoc; [reflexivity|].
      repeat apply quantity_kwarg_set_if_typed; reflexivity. }
  intros updates. apply triple_fact. intros Hu.
  keep_step.
  eapply (triple_bind _ _
            (fun updates w => P w /\ quantity_kwarg updates = None)).
  { match goal with
    | |- context [if String.eqb ?s "" then _ else _] =>
        destruct (String.eqb s "")
    end.
    - apply triple_ret. intros w Hw. split; [exact Hw | exact Hu].
    - eapply triple_bind; [apply triple_int_of; auto | intros min_stock].
      apply triple_ret. intros w Hw. split; [exact Hw|].
      apply quantity_kwarg_snoc; [reflexivity | exact Hu]. }
  intros updates'. apply triple_fact. intros Hu'.
  keep_step.
  match goal with
  | |- context [set_if_typed ?s "supplier" ?v updates'] =>
      assert (Hfinal : quantity_kwarg (set_if_typed s "supplier" v updates')
                       = None)
        by (apply quantity_kwarg_set_if_typed; [reflexivity | exact Hu']);
      destruct (set_if_typed s "supplier" v updates') as [|u us];
      [apply triple_print; auto|]
  end.
  eapply (triple_bind _ _ (fun _ => P)).
  { apply triple_manager. intros w Hw.
    match goal with
    | |- context [update_product ?i (u :: us)] =>
        pose proof (update_product_same_stock w0 w i (u :: us) Hfinal Hw)
          as H
    end.
    unfold run in H.
    destruct (update_product _ (u :: us) w) as [[b|e] w']; exact H. }
  intros updated. destruct updated; apply triple_print; auto.
Qed.
End UpdateProductDialogue.

(** X27: the update dialogue cannot touch the stock.  Whatever is typed
    and whatever the built-ins make of it, after [update_product_ui] the
    products are the same in number and order, with the same ids and the
    same quantities, and the ledger is as it was. *)
Theorem X27_update_product_ui_keeps_stock (strip : string -> string)
    (py_int : string -> option Z) (py_float : string -> option float)
    (str_int : Z -> string) (str_float : float -> string) (t : Terminal) :
  same_stock
    (world t)
    (world (snd (update_product_ui strip py_int py_float str_int str_float
                                   t))).
Proof.
  pose proof (update_product_ui_effect strip py_int py_float str_int
                str_float (world t) t) as H.
  assert (H0 : same_stock (world t) (world t)) by (repeat split).
  specialize (H H0).
  destruct (update_product_ui strip py_int py_float str_int str_float t)
    as [[a|e] t']; exact H.
Qed.


Lemma no_negative_stock_remove_stock (w : World) (product_id quantity : Z)
    (price : float) (notes : string) :
  no_negative_stock w ->
  no_negative_stock (run (remove_stock product_id quantity price notes) w).
Proof.
  intros Hw. unfold run.
  destruct (filter (fun r => Row.id r =? product_id) (products w))
    as [|row rest] eqn:Hf.
  - rewrite (proj2 (stock_missing _ _ _ _ _ Hf)). exact Hw.
  - destruct (Z.lt_ge_cases (Row.quantity row) quantity) as [Hlt|Hge].
    + rewrite (remove_stock_refused _ _ _ _ _ _ _ Hf Hlt). exact Hw.
    + rewrite (remove_stock_found _ _ _ _ _ _ _ Hf Hge).
      assert (Hrow : 0 <= Row.quantity row).
      { assert (Hin : In row (filter (fun r => Row.id r =? product_id)
                                     (products w)))
          by (rewrite Hf; left; reflexivity).
        apply filter_In in Hin as [Hin _].
        exact (proj1 (Forall_forall _ _) Hw row Hin). }
      unfold no_negative_stock in *.
      cbn [snd after_stock_write products].
      apply Forall_map. revert Hw. apply Forall_impl. intros r Hr.
      destruct (Row.id r =? product_id); [|exact Hr].
      rewrite (proj2 (stock_row_min_stock _ _ _)). lia.
Qed.

Lemma store_only_no_negative_stock : store_only no_negative_stock.
Proof.
  intros w w' (Hp & _) Hw. unfold no_negative_stock. rewrite Hp. exact Hw.
Qed.


Section StockOperationDialogue.
Variable strip : string -> string.
Variable py_int : string -> option Z.
Variable py_float : string -> option float.
Variable str_int : Z -> string.
Variable operation : string.

(** A property of the tables that the stock method chosen by [operation]
    keeps. *)
Variable P : World -> Prop.
Hypothesis P_store : store_only P.
Hypothesis P_kept :
  forall product_id quantity price notes w,
    P w ->
    P (run (if String.eqb operation "add"
            then add_stock product_id quantity price notes
            else remove_stock product_id quantity price notes) w).

Lemma stock_operation_ui_effect :
  ui_triple P (stock_operation_ui strip py_int py_float str_int operation)
            (fun _ => P) P.
Proof.
  unfold stock_operation_ui.
  eapply (triple_try _ _ _ _ P);
    [| intros e; apply triple_handler; auto].
  do 2 keep_step.
  eapply (triple_bind _ _ (fun _ => P)).
  { apply triple_manager. intros w Hw. exact Hw. }
  intros [product|]; [|apply triple_print; auto].
  do 6 keep_step. cbv zeta.
  eapply (triple_bind _ _ (fun _ => P)).
  { match goal with
    | |- context [add_stock ?i ?q ?p ?n] =>
        pose proof (P_kept i q p n) as H
    end.
    destruct (String.eqb operation "add");
      apply triple_manager; intros w Hw; specialize (H w Hw);
      unfold run in H.
    - match goal with
      | |- context [add_stock ?i ?q ?p ?n w] =>
          destruct (add_stock i q p n w) as [[b|e] w']; exact H
      end.
    - match goal with
      | |- context [remove_stock ?i ?q ?p ?n w] =>
          destruct (remove_stock i q p n w) as [[b|e] w']; exact H
      end. }
  intros [|]; [|apply triple_print; auto].
  eapply (triple_bind _ _ (fun _ => P)).
  { apply triple_manager. intros w Hw. exact Hw. }
  intros [row|]; [apply triple_print; auto | apply triple_raise; auto].
Qed.

Lemma stock_operation_ui_keeps (t : Terminal) :
  P (world t) ->
  P (world (snd (stock_operation_ui strip py_int py_float str_int operation
                                    t))).
Proof.
  intros H. pose proof (stock_operation_ui_effect t H) as H'.
  destruct (stock_operation_ui strip py_int py_float str_int operation t)
    as [[a|e] t']; exact H'.
Qed.
End StockOperationDialogue.



(** X29: taking stock out through the dialogue never leaves a negative
    quantity.  When the operation word is not "add" (the dialogue then calls
    [remove_stock]) and no stored quantity is negative,
    [stock_operation_ui] ends with no negative quantity, whatever is typed,
    a negative amount included. *)
Theorem X29_remove_dialogue_keeps_stock_nonnegative
    (strip : string -> string) (py_int : string -> option Z)
    (py_float : string -> option float) (str_int : Z -> string)
    (operation : string) (t : Terminal) :
  operation <> "add" ->
  no_negative_stock (world t) ->
  no_negative_stock
    (world (snd (stock_operation_ui strip py_int py_float str_int operation
                                    t))).
Proof.
  intros Hop Hw.
  apply (stock_operation_ui_keeps strip py_int py_float str_int operation
           no_negative_stock);
    [exact store_only_no_negative_stock | | exact Hw].
  intros product_id quantity price notes w Hw'.
  destruct (String.eqb_spec operation "add") as [E|_]; [contradiction|].
  apply no_negative_stock_remove_stock, Hw'.
Qed.

Lemma X29_remove_dialogue_keeps_stock_nonnegative_witness :
  no_negative_stock
    (world (snd (stock_operation_ui (fun s => s) (fun _ => Some 1)
                   (fun _ => Some (S754_zero false)) (fun _ => "9") "remove"
                   (mk_terminal world_laptop ["1"; "1"; ""; "sold"])))).
Proof.
  apply (X29_remove_dialogue_keeps_stock_nonnegative (fun s => s)
           (fun _ => Some 1) (fun _ => Some (S754_zero false))
           (fun _ => "9") "remove"
           (mk_terminal world_laptop ["1"; "1"; ""; "sold"])).
  - discriminate.
  - repeat constructor. discriminate.
Defined.




Section StockOperationSuccess.
Variable strip : string -> string.
Variable py_int : string -> option Z.
Variable py_float : string -> option float.
Variable str_int : Z -> string.

End StockOperationSuccess.


